(** * AICA: the skill/job matching agent ([CareerAgent]) and its HTTP shell

    A shallow embedding of [Agentic_AI_Integration.py] (class [CareerAgent])
    and of the endpoints of [AI_Career_Agent.py] ([find_jobs],
    [analyze_skills], [learning_resources], with [allowed_file]), followed
    by the properties of the matching-and-recommendation pipeline and of
    the shell.

    Conventions of the embedding
    - A Python [str] is the [string] of the bytes of its UTF-8 encoding:
      equality, concatenation and the substring test [in] are those of
      the bytes, which for encoded text agree with those of the code
      points (a [str] that holds a lone surrogate has no encoding and is
      outside the embedding).  [str.lower] follows CPython: character by
      character on ASCII text, and otherwise code point by code point with
      the case data of the Unicode character database (version 14.0.0, as
      in CPython 3.11) and the rule of the final sigma.
    - Python [float] is IEEE-754 binary64, taken from the Standard Library's
      executable specification [SpecFloat] (precision 53, emax 1024).
    - Methods that print, read [self] or may raise run in the monad [M]:
      a state over the agent object and the standard output, with
      exceptions.
    - JSON-like results (the reports, which are Python dicts) are [value]s;
      a dict is an association list in insertion order. *)

From Stdlib Require Import ZArith List String Ascii Bool Lia Permutation.
From Stdlib Require Import Floats.SpecFloat.
Import ListNotations.

Open Scope string_scope.
Open Scope list_scope.
Open Scope Z_scope.

(* ------------------------------------------------------------------ *)
(** ** Strings *)

Module Str.

(** [c.lower()] for one ASCII character. *)
Definition lower_ascii (c : ascii) : ascii :=
  let n := nat_of_ascii c in
  if (Nat.leb 65 n && Nat.leb n 90)%bool then ascii_of_nat (n + 32) else c.

(** The path of [str.lower] for a string of ASCII characters
    ([ascii_upper_or_lower] in CPython): character by character. *)
Fixpoint lower_ascii_string (s : string) : string :=
  match s with
  | EmptyString => EmptyString
  | String c s' => String (lower_ascii c) (lower_ascii_string s')
  end.

(** [s.isascii()] *)
Fixpoint is_ascii (s : string) : bool :=
  match s with
  | EmptyString => true
  | String c s' => (Nat.ltb (nat_of_ascii c) 128 && is_ascii s')%bool
  end.

(** *** UTF-8: a [str] and its code points *)

Definition byte_of (c : ascii) : Z := Z.of_nat (nat_of_ascii c).
Definition char_of (b : Z) : ascii := ascii_of_nat (Z.to_nat b).

(** A continuation byte, [10xxxxxx]. *)
Definition continuation (b : Z) : bool := (128 <=? b) && (b <=? 191).

(** The code points of a string; [None] when the bytes are not the UTF-8
    encoding of a sequence of code points (no [str] is so represented). *)
Fixpoint decode (s : string) : option (list Z) :=
  match s with
  | EmptyString => Some []
  | String c0 s1 =>
      let b0 := byte_of c0 in
      if b0 <? 128 then option_map (cons b0) (decode s1)
      else
        match s1 with
        | EmptyString => None
        | String c1 s2 =>
            let b1 := byte_of c1 in
            if negb (continuation b1) then None
            else if (194 <=? b0) && (b0 <=? 223) then
              option_map (cons ((b0 - 192) * 64 + (b1 - 128))) (decode s2)
            else
              match s2 with
              | EmptyString => None
              | String c2 s3 =>
                  let b2 := byte_of c2 in
                  if negb (continuation b2) then None
                  else if (224 <=? b0) && (b0 <=? 239) then
                    let cp := (b0 - 224) * 4096 + (b1 - 128) * 64 + (b2 - 128) in
                    if (cp <? 2048) || ((55296 <=? cp) && (cp <=? 57343)) then None
                    else option_map (cons cp) (decode s3)
                  else
                    match s3 with
                    | EmptyString => None
                    | String c3 s4 =>
                        let b3 := byte_of c3 in
                        if negb (continuation b3) then None
                        else if (240 <=? b0) && (b0 <=? 244) then
                          let cp := (b0 - 240) * 262144 + (b1 - 128) * 4096
                                    + (b2 - 128) * 64 + (b3 - 128) in
                          if (cp <? 65536) || (1114111 <? cp) then None
                          else option_map (cons cp) (decode s4)
                        else None
                    end
              end
        end
  end.

Definition encode_one (cp : Z) : string :=
  if cp <? 128 then String (char_of cp) EmptyString
  else if cp <? 2048 then
    String (char_of (192 + cp / 64))
      (String (char_of (128 + cp mod 64)) EmptyString)
  else if cp <? 65536 then
    String (char_of (224 + cp / 4096))
      (String (char_of (128 + (cp / 64) mod 64))
         (String (char_of (128 + cp mod 64)) EmptyString))
  else
    String (char_of (240 + cp / 262144))
      (String (char_of (128 + (cp / 4096) mod 64))
         (String (char_of (128 + (cp / 64) mod 64))
            (String (char_of (128 + cp mod 64)) EmptyString))).

Fixpoint encode (cps : list Z) : string :=
  match cps with
  | [] => EmptyString
  | cp :: cps' => (encode_one cp ++ encode cps')%string
  end.

(** *** The case data of the Unicode character database (version 14.0.0,
    as in CPython 3.11) *)

(** The simple lower-case mappings: [(first, last, step, delta)] says
    that each code point [first + k * step] up to [last] goes to itself
    plus [delta]. *)
Definition lowercase_mappings : list (Z * Z * Z * Z) :=
  [ (65, 90, 1, 32); (192, 214, 1, 32); (216, 222, 1, 32); (256, 302, 2, 1);
    (306, 310, 2, 1); (313, 327, 2, 1); (330, 374, 2, 1); (376, 376, 1, -121);
    (377, 381, 2, 1); (385, 385, 1, 210); (386, 388, 2, 1); (390, 390, 1, 206);
    (391, 391, 1, 1); (393, 394, 1, 205); (395, 395, 1, 1); (398, 398, 1, 79);
    (399, 399, 1, 202); (400, 400, 1, 203); (401, 401, 1, 1); (403, 403, 1, 205);
    (404, 404, 1, 207); (406, 406, 1, 211); (407, 407, 1, 209); (408, 408, 1, 1);
    (412, 412, 1, 211); (413, 413, 1, 213); (415, 415, 1, 214); (416, 420, 2, 1);
    (422, 422, 1, 218); (423, 423, 1, 1); (425, 425, 1, 218); (428, 428, 1, 1);
    (430, 430, 1, 218); (431, 431, 1, 1); (433, 434, 1, 217); (435, 437, 2, 1);
    (439, 439, 1, 219); (440, 440, 1, 1); (444, 444, 1, 1); (452, 452, 1, 2);
    (453, 453, 1, 1); (455, 455, 1, 2); (456, 456, 1, 1); (458, 458, 1, 2);
    (459, 475, 2, 1); (478, 494, 2, 1); (497, 497, 1, 2); (498, 500, 2, 1);
    (502, 502, 1, -97); (503, 503, 1, -56); (504, 542, 2, 1); (544, 544, 1, -130);
    (546, 562, 2, 1); (570, 570, 1, 10795); (571, 571, 1, 1); (573, 573, 1, -163);
    (574, 574, 1, 10792); (577, 577, 1, 1); (579, 579, 1, -195); (580, 580, 1, 69);
    (581, 581, 1, 71); (582, 590, 2, 1); (880, 882, 2, 1); (886, 886, 1, 1);
    (895, 895, 1, 116); (902, 902, 1, 38); (904, 906, 1, 37); (908, 908, 1, 64);
    (910, 911, 1, 63); (913, 929, 1, 32); (931, 939, 1, 32); (975, 975, 1, 8);
    (984, 1006, 2, 1); (1012, 1012, 1, -60); (1015, 1015, 1, 1); (1017, 1017, 1, -7);
    (1018, 1018, 1, 1); (1021, 1023, 1, -130); (1024, 1039, 1, 80); (1040, 1071, 1, 32);
    (1120, 1152, 2, 1); (1162, 1214, 2, 1); (1216, 1216, 1, 15); (1217, 1229, 2, 1);
    (1232, 1326, 2, 1); (1329, 1366, 1, 48); (4256, 4293, 1, 7264); (4295, 4295, 1, 7264);
    (4301, 4301, 1, 7264); (5024, 5103, 1, 38864); (5104, 5109, 1, 8); (7312, 7354, 1, -3008);
    (7357, 7359, 1, -3008); (7680, 7828, 2, 1); (7838, 7838, 1, -7615); (7840, 7934, 2, 1);
    (7944, 7951, 1, -8); (7960, 7965, 1, -8); (7976, 7983, 1, -8); (7992, 7999, 1, -8);
    (8008, 8013, 1, -8); (8025, 8031, 2, -8); (8040, 8047, 1, -8); (8072, 8079, 1, -8);
    (8088, 8095, 1, -8); (8104, 8111, 1, -8); (8120, 8121, 1, -8); (8122, 8123, 1, -74);
    (8124, 8124, 1, -9); (8136, 8139, 1, -86); (8140, 8140, 1, -9); (8152, 8153, 1, -8);
    (8154, 8155, 1, -100); (8168, 8169, 1, -8); (8170, 8171, 1, -112); (8172, 8172, 1, -7);
    (8184, 8185, 1, -128); (8186, 8187, 1, -126); (8188, 8188, 1, -9); (8486, 8486, 1, -7517);
    (8490, 8490, 1, -8383); (8491, 8491, 1, -8262); (8498, 8498, 1, 28); (8544, 8559, 1, 16);
    (8579, 8579, 1, 1); (9398, 9423, 1, 26); (11264, 11311, 1, 48); (11360, 11360, 1, 1);
    (11362, 11362, 1, -10743); (11363, 11363, 1, -3814); (11364, 11364, 1, -10727); (11367, 11371, 2, 1);
    (11373, 11373, 1, -10780); (11374, 11374, 1, -10749); (11375, 11375, 1, -10783); (11376, 11376, 1, -10782);
    (11378, 11378, 1, 1); (11381, 11381, 1, 1); (11390, 11391, 1, -10815); (11392, 11490, 2, 1);
    (11499, 11501, 2, 1); (11506, 11506, 1, 1); (42560, 42604, 2, 1); (42624, 42650, 2, 1);
    (42786, 42798, 2, 1); (42802, 42862, 2, 1); (42873, 42875, 2, 1); (42877, 42877, 1, -35332);
    (42878, 42886, 2, 1); (42891, 42891, 1, 1); (42893, 42893, 1, -42280); (42896, 42898, 2, 1);
    (42902, 42920, 2, 1); (42922, 42922, 1, -42308); (42923, 42923, 1, -42319); (42924, 42924, 1, -42315);
    (42925, 42925, 1, -42305); (42926, 42926, 1, -42308); (42928, 42928, 1, -42258); (42929, 42929, 1, -42282);
    (42930, 42930, 1, -42261); (42931, 42931, 1, 928); (42932, 42946, 2, 1); (42948, 42948, 1, -48);
    (42949, 42949, 1, -42307); (42950, 42950, 1, -35384); (42951, 42953, 2, 1); (42960, 42960, 1, 1);
    (42966, 42968, 2, 1); (42997, 42997, 1, 1); (65313, 65338, 1, 32); (66560, 66599, 1, 40);
    (66736, 66771, 1, 40); (66928, 66938, 1, 39); (66940, 66954, 1, 39); (66956, 66962, 1, 39);
    (66964, 66965, 1, 39); (68736, 68786, 1, 64); (71840, 71871, 1, 32); (93760, 93791, 1, 32);
    (125184, 125217, 1, 34) ].

(** The code points with the property Cased, as ranges. *)
Definition cased_ranges : list (Z * Z) :=
  [ (65, 90); (97, 122); (170, 170); (181, 181); (186, 186);
    (192, 214); (216, 246); (248, 442); (444, 447); (452, 659);
    (661, 696); (704, 705); (736, 740); (837, 837); (880, 883);
    (886, 887); (890, 893); (895, 895); (902, 902); (904, 906);
    (908, 908); (910, 929); (931, 1013); (1015, 1153); (1162, 1327);
    (1329, 1366); (1376, 1416); (4256, 4293); (4295, 4295); (4301, 4301);
    (4304, 4346); (4349, 4351); (5024, 5109); (5112, 5117); (7296, 7304);
    (7312, 7354); (7357, 7359); (7424, 7615); (7680, 7957); (7960, 7965);
    (7968, 8005); (8008, 8013); (8016, 8023); (8025, 8025); (8027, 8027);
    (8029, 8029); (8031, 8061); (8064, 8116); (8118, 8124); (8126, 8126);
    (8130, 8132); (8134, 8140); (8144, 8147); (8150, 8155); (8160, 8172);
    (8178, 8180); (8182, 8188); (8305, 8305); (8319, 8319); (8336, 8348);
    (8450, 8450); (8455, 8455); (8458, 8467); (8469, 8469); (8473, 8477);
    (8484, 8484); (8486, 8486); (8488, 8488); (8490, 8493); (8495, 8500);
    (8505, 8505); (8508, 8511); (8517, 8521); (8526, 8526); (8544, 8575);
    (8579, 8580); (9398, 9449); (11264, 11492); (11499, 11502); (11506, 11507);
    (11520, 11557); (11559, 11559); (11565, 11565); (42560, 42605); (42624, 42653);
    (42786, 42887); (42891, 42894); (42896, 42954); (42960, 42961); (42963, 42963);
    (42965, 42969); (42997, 42998); (43000, 43002); (43824, 43866); (43868, 43880);
    (43888, 43967); (64256, 64262); (64275, 64279); (65313, 65338); (65345, 65370);
    (66560, 66639); (66736, 66771); (66776, 66811); (66928, 66938); (66940, 66954);
    (66956, 66962); (66964, 66965); (66967, 66977); (66979, 66993); (66995, 67001);
    (67003, 67004); (67456, 67456); (67459, 67461); (67463, 67504); (67506, 67514);
    (68736, 68786); (68800, 68850); (71840, 71903); (93760, 93823); (119808, 119892);
    (119894, 119964); (119966, 119967); (119970, 119970); (119973, 119974); (119977, 119980);
    (119982, 119993); (119995, 119995); (119997, 120003); (120005, 120069); (120071, 120074);
    (120077, 120084); (120086, 120092); (120094, 120121); (120123, 120126); (120128, 120132);
    (120134, 120134); (120138, 120144); (120146, 120485); (120488, 120512); (120514, 120538);
    (120540, 120570); (120572, 120596); (120598, 120628); (120630, 120654); (120656, 120686);
    (120688, 120712); (120714, 120744); (120746, 120770); (120772, 120779); (122624, 122633);
    (122635, 122654); (125184, 125251); (127280, 127305); (127312, 127337); (127344, 127369) ].

(** The code points with the property Case_Ignorable, as ranges. *)
Definition case_ignorable_ranges : list (Z * Z) :=
  [ (39, 39); (46, 46); (58, 58); (94, 94); (96, 96);
    (168, 168); (173, 173); (175, 175); (180, 180); (183, 184);
    (688, 879); (884, 885); (890, 890); (900, 901); (903, 903);
    (1155, 1161); (1369, 1369); (1375, 1375); (1425, 1469); (1471, 1471);
    (1473, 1474); (1476, 1477); (1479, 1479); (1524, 1524); (1536, 1541);
    (1552, 1562); (1564, 1564); (1600, 1600); (1611, 1631); (1648, 1648);
    (1750, 1757); (1759, 1768); (1770, 1773); (1807, 1807); (1809, 1809);
    (1840, 1866); (1958, 1968); (2027, 2037); (2042, 2042); (2045, 2045);
    (2070, 2093); (2137, 2139); (2184, 2184); (2192, 2193); (2200, 2207);
    (2249, 2306); (2362, 2362); (2364, 2364); (2369, 2376); (2381, 2381);
    (2385, 2391); (2402, 2403); (2417, 2417); (2433, 2433); (2492, 2492);
    (2497, 2500); (2509, 2509); (2530, 2531); (2558, 2558); (2561, 2562);
    (2620, 2620); (2625, 2626); (2631, 2632); (2635, 2637); (2641, 2641);
    (2672, 2673); (2677, 2677); (2689, 2690); (2748, 2748); (2753, 2757);
    (2759, 2760); (2765, 2765); (2786, 2787); (2810, 2815); (2817, 2817);
    (2876, 2876); (2879, 2879); (2881, 2884); (2893, 2893); (2901, 2902);
    (2914, 2915); (2946, 2946); (3008, 3008); (3021, 3021); (3072, 3072);
    (3076, 3076); (3132, 3132); (3134, 3136); (3142, 3144); (3146, 3149);
    (3157, 3158); (3170, 3171); (3201, 3201); (3260, 3260); (3263, 3263);
    (3270, 3270); (3276, 3277); (3298, 3299); (3328, 3329); (3387, 3388);
    (3393, 3396); (3405, 3405); (3426, 3427); (3457, 3457); (3530, 3530);
    (3538, 3540); (3542, 3542); (3633, 3633); (3636, 3642); (3654, 3662);
    (3761, 3761); (3764, 3772); (3782, 3782); (3784, 3789); (3864, 3865);
    (3893, 3893); (3895, 3895); (3897, 3897); (3953, 3966); (3968, 3972);
    (3974, 3975); (3981, 3991); (3993, 4028); (4038, 4038); (4141, 4144);
    (4146, 4151); (4153, 4154); (4157, 4158); (4184, 4185); (4190, 4192);
    (4209, 4212); (4226, 4226); (4229, 4230); (4237, 4237); (4253, 4253);
    (4348, 4348); (4957, 4959); (5906, 5908); (5938, 5939); (5970, 5971);
    (6002, 6003); (6068, 6069); (6071, 6077); (6086, 6086); (6089, 6099);
    (6103, 6103); (6109, 6109); (6155, 6159); (6211, 6211); (6277, 6278);
    (6313, 6313); (6432, 6434); (6439, 6440); (6450, 6450); (6457, 6459);
    (6679, 6680); (6683, 6683); (6742, 6742); (6744, 6750); (6752, 6752);
    (6754, 6754); (6757, 6764); (6771, 6780); (6783, 6783); (6823, 6823);
    (6832, 6862); (6912, 6915); (6964, 6964); (6966, 6970); (6972, 6972);
    (6978, 6978); (7019, 7027); (7040, 7041); (7074, 7077); (7080, 7081);
    (7083, 7085); (7142, 7142); (7144, 7145); (7149, 7149); (7151, 7153);
    (7212, 7219); (7222, 7223); (7288, 7293); (7376, 7378); (7380, 7392);
    (7394, 7400); (7405, 7405); (7412, 7412); (7416, 7417); (7468, 7530);
    (7544, 7544); (7579, 7679); (8125, 8125); (8127, 8129); (8141, 8143);
    (8157, 8159); (8173, 8175); (8189, 8190); (8203, 8207); (8216, 8217);
    (8228, 8228); (8231, 8231); (8234, 8238); (8288, 8292); (8294, 8303);
    (8305, 8305); (8319, 8319); (8336, 8348); (8400, 8432); (11388, 11389);
    (11503, 11505); (11631, 11631); (11647, 11647); (11744, 11775); (11823, 11823);
    (12293, 12293); (12330, 12333); (12337, 12341); (12347, 12347); (12441, 12446);
    (12540, 12542); (40981, 40981); (42232, 42237); (42508, 42508); (42607, 42610);
    (42612, 42621); (42623, 42623); (42652, 42655); (42736, 42737); (42752, 42785);
    (42864, 42864); (42888, 42890); (42994, 42996); (43000, 43001); (43010, 43010);
    (43014, 43014); (43019, 43019); (43045, 43046); (43052, 43052); (43204, 43205);
    (43232, 43249); (43263, 43263); (43302, 43309); (43335, 43345); (43392, 43394);
    (43443, 43443); (43446, 43449); (43452, 43453); (43471, 43471); (43493, 43494);
    (43561, 43566); (43569, 43570); (43573, 43574); (43587, 43587); (43596, 43596);
    (43632, 43632); (43644, 43644); (43696, 43696); (43698, 43700); (43703, 43704);
    (43710, 43711); (43713, 43713); (43741, 43741); (43756, 43757); (43763, 43764);
    (43766, 43766); (43867, 43871); (43881, 43883); (44005, 44005); (44008, 44008);
    (44013, 44013); (64286, 64286); (64434, 64450); (65024, 65039); (65043, 65043);
    (65056, 65071); (65106, 65106); (65109, 65109); (65279, 65279); (65287, 65287);
    (65294, 65294); (65306, 65306); (65342, 65342); (65344, 65344); (65392, 65392);
    (65438, 65439); (65507, 65507); (65529, 65531); (66045, 66045); (66272, 66272);
    (66422, 66426); (67456, 67461); (67463, 67504); (67506, 67514); (68097, 68099);
    (68101, 68102); (68108, 68111); (68152, 68154); (68159, 68159); (68325, 68326);
    (68900, 68903); (69291, 69292); (69446, 69456); (69506, 69509); (69633, 69633);
    (69688, 69702); (69744, 69744); (69747, 69748); (69759, 69761); (69811, 69814);
    (69817, 69818); (69821, 69821); (69826, 69826); (69837, 69837); (69888, 69890);
    (69927, 69931); (69933, 69940); (70003, 70003); (70016, 70017); (70070, 70078);
    (70089, 70092); (70095, 70095); (70191, 70193); (70196, 70196); (70198, 70199);
    (70206, 70206); (70367, 70367); (70371, 70378); (70400, 70401); (70459, 70460);
    (70464, 70464); (70502, 70508); (70512, 70516); (70712, 70719); (70722, 70724);
    (70726, 70726); (70750, 70750); (70835, 70840); (70842, 70842); (70847, 70848);
    (70850, 70851); (71090, 71093); (71100, 71101); (71103, 71104); (71132, 71133);
    (71219, 71226); (71229, 71229); (71231, 71232); (71339, 71339); (71341, 71341);
    (71344, 71349); (71351, 71351); (71453, 71455); (71458, 71461); (71463, 71467);
    (71727, 71735); (71737, 71738); (71995, 71996); (71998, 71998); (72003, 72003);
    (72148, 72151); (72154, 72155); (72160, 72160); (72193, 72202); (72243, 72248);
    (72251, 72254); (72263, 72263); (72273, 72278); (72281, 72283); (72330, 72342);
    (72344, 72345); (72752, 72758); (72760, 72765); (72767, 72767); (72850, 72871);
    (72874, 72880); (72882, 72883); (72885, 72886); (73009, 73014); (73018, 73018);
    (73020, 73021); (73023, 73029); (73031, 73031); (73104, 73105); (73109, 73109);
    (73111, 73111); (73459, 73460); (78896, 78904); (92912, 92916); (92976, 92982);
    (92992, 92995); (94031, 94031); (94095, 94111); (94176, 94177); (94179, 94180);
    (110576, 110579); (110581, 110587); (110589, 110590); (113821, 113822); (113824, 113827);
    (118528, 118573); (118576, 118598); (119143, 119145); (119155, 119170); (119173, 119179);
    (119210, 119213); (119362, 119364); (121344, 121398); (121403, 121452); (121461, 121461);
    (121476, 121476); (121499, 121503); (121505, 121519); (122880, 122886); (122888, 122904);
    (122907, 122913); (122915, 122916); (122918, 122922); (123184, 123197); (123566, 123566);
    (123628, 123631); (125136, 125142); (125252, 125259); (127995, 127999); (917505, 917505);
    (917536, 917631); (917760, 917999) ].

Definition in_ranges (ranges : list (Z * Z)) (cp : Z) : bool :=
  existsb (fun r => (fst r <=? cp) && (cp <=? snd r)) ranges.

Definition is_cased (cp : Z) : bool := in_ranges cased_ranges cp.

Definition is_case_ignorable (cp : Z) : bool := in_ranges case_ignorable_ranges cp.

Fixpoint lookup_lower (table : list (Z * Z * Z * Z)) (cp : Z) : Z :=
  match table with
  | [] => cp
  | (first, last, step, delta) :: table' =>
      if (first <=? cp) && (cp <=? last) && ((cp - first) mod step =? 0)
      then cp + delta
      else lookup_lower table' cp
  end.

(** [_PyUnicode_ToLowerFull]: the lower case of one code point; U+0130
    alone has a lower case of two code points. *)
Definition to_lower_full (cp : Z) : list Z :=
  if cp =? 304 then [105; 775] else [lookup_lower lowercase_mappings cp].

(** The first code point of a list that is not Case_Ignorable. *)
Fixpoint first_not_ignorable (cps : list Z) : option Z :=
  match cps with
  | [] => None
  | cp :: cps' => if is_case_ignorable cp then first_not_ignorable cps' else Some cp
  end.

(** [handle_capital_sigma]: the lower case of U+03A3 between the code
    points [before] (nearest first) and [after]: the final sigma U+03C2
    when a cased letter stands before and none after, case-ignorable code
    points apart; the sigma U+03C3 otherwise. *)
Definition lower_sigma (before after : list Z) : Z :=
  match first_not_ignorable before with
  | Some c =>
      if is_cased c then
        match first_not_ignorable after with
        | None => 962
        | Some c' => if is_cased c' then 963 else 962
        end
      else 963
  | None => 963
  end.

(** [do_lower]: code point by code point, U+03A3 by its context. *)
Fixpoint lower_codepoints (before cps : list Z) : list Z :=
  match cps with
  | [] => []
  | cp :: after =>
      (if cp =? 931 then [lower_sigma before after] else to_lower_full cp)
      ++ lower_codepoints (cp :: before) after
  end.

(** [s.lower()], on the UTF-8 encoding of [s]. *)
Definition lower (s : string) : string :=
  if is_ascii s then lower_ascii_string s
  else match decode s with
       | Some cps => encode (lower_codepoints [] cps)
       | None => s
       end.

(** [needle in hay] for two strings: substring search. *)
Fixpoint contains (needle hay : string) : bool :=
  if String.prefix needle hay then true
  else match hay with
       | EmptyString => false
       | String _ hay' => contains needle hay'
       end.

(** [sep.join(parts)]. *)
Definition join (sep : string) (parts : list string) : string :=
  String.concat sep parts.

(** [x in xs] for a list of strings (comparison by [==]). *)
Definition mem (x : string) (xs : list string) : bool :=
  existsb (String.eqb x) xs.

Definition nl : string := String (ascii_of_nat 10) EmptyString.

End Str.

(* ------------------------------------------------------------------ *)
(** ** Exceptions and Python arithmetic *)

Inductive exn_class :=
| ZeroDivisionError
| OverflowError
| ValueError
| OSError
| JSONDecodeError.

(** An exception: its class and the text that [str(e)] gives. *)
Record exn := {
  exn_kind : exn_class;
  exn_text : string
}.

Module PyNum.

Definition prec : Z := 53.
Definition emax : Z := 1024.

(** [a / b] on two ints: the correctly rounded quotient as a float. *)
Definition true_div (a b : Z) : exn + spec_float :=
  if b =? 0 then inl {| exn_kind := ZeroDivisionError; exn_text := "division by zero" |}
  else if a =? 0 then inr (S754_zero (b <? 0))
  else
    match SFdiv prec emax
            (S754_finite (a <? 0) (Z.to_pos (Z.abs a)) 0)
            (S754_finite (b <? 0) (Z.to_pos (Z.abs b)) 0) with
    | S754_infinity _ =>
        inl {| exn_kind := OverflowError;
               exn_text := "integer division result too large for a float" |}
    | q => inr q
    end.

(** [float(n)] for an int, as done implicitly by [float * int]. *)
Definition float_of_int (n : Z) : exn + spec_float :=
  match binary_normalize prec emax n 0 false with
  | S754_infinity _ =>
      inl {| exn_kind := OverflowError;
             exn_text := "int too large to convert to float" |}
  | f => inr f
  end.

(** [x * n] for a float [x] and an int [n]. *)
Definition float_mul_int (x : spec_float) (n : Z) : exn + spec_float :=
  match float_of_int n with
  | inl e => inl e
  | inr y => inr (SFmul prec emax x y)
  end.

(** [int(x)] for a float: truncation towards zero. *)
Definition int_of_float (x : spec_float) : exn + Z :=
  match x with
  | S754_zero _ => inr 0
  | S754_infinity _ =>
      inl {| exn_kind := OverflowError;
             exn_text := "cannot convert float infinity to integer" |}
  | S754_nan =>
      inl {| exn_kind := ValueError;
             exn_text := "cannot convert float NaN to integer" |}
  | S754_finite s m e => inr (cond_Zopp s (Z.shiftl (Zpos m) e))
  end.

End PyNum.

(* ------------------------------------------------------------------ *)
(** ** JSON-like values *)

#[warnings="-register-all"]
Inductive value :=
| VStr (s : string)
| VInt (n : Z)
| VList (items : list value)
| VDict (entries : list (string * value)).

Definition dict := list (string * value).

(** [d.get(k)] *)
Fixpoint dict_get (k : string) (d : dict) : option value :=
  match d with
  | [] => None
  | (k', v) :: d' => if String.eqb k k' then Some v else dict_get k d'
  end.

(** [d[k] = v]: replaces the entry when the key is there, appends it
    otherwise (insertion order). *)
Fixpoint dict_set (k : string) (v : value) (d : dict) : dict :=
  match d with
  | [] => [(k, v)]
  | (k', v') :: d' =>
      if String.eqb k k' then (k, v) :: d' else (k', v') :: dict_set k v d'
  end.

(** [d[k].append(v)] for an entry that holds a list. *)
Fixpoint dict_append (k : string) (v : value) (d : dict) : dict :=
  match d with
  | [] => []
  | (k', VList items) :: d' =>
      if String.eqb k k' then (k', VList (items ++ [v])) :: d'
      else (k', VList items) :: dict_append k v d'
  | kv :: d' => kv :: dict_append k v d'
  end.

(* ------------------------------------------------------------------ *)
(** ** The agent object and the monad of its methods *)

(** One entry of the job database: an object with the string fields
    [title], [company] and [description]. *)
Record JobPosting := {
  title : string;
  company : string;
  description : string
}.

Record CareerAgent := {
  granite_api_key : string;
  mock_db_path : string;
  mock_jobs : list JobPosting
}.

Record world := {
  self : CareerAgent;
  stdout : list string
}.

Definition M (A : Type) : Type := world -> (exn + A) * world.

Definition ret {A} (a : A) : M A := fun w => (inr a, w).

Definition bind {A B} (m : M A) (k : A -> M B) : M B :=
  fun w => match m w with
           | (inl e, w') => (inl e, w')
           | (inr a, w') => k a w'
           end.

Definition raise {A} (e : exn) : M A := fun w => (inl e, w).

Definition lift {A} (r : exn + A) : M A := fun w => (r, w).

Definition print (line : string) : M unit :=
  fun w => (inr tt, {| self := self w; stdout := stdout w ++ [line] |}).

Definition get_self : M CareerAgent := fun w => (inr (self w), w).

Definition set_mock_jobs (jobs : list JobPosting) : M unit :=
  fun w => (inr tt,
            {| self := {| granite_api_key := granite_api_key (self w);
                          mock_db_path := mock_db_path (self w);
                          mock_jobs := jobs |};
               stdout := stdout w |}).

Definition set_granite_api_key (key : string) : M unit :=
  fun w => (inr tt,
            {| self := {| granite_api_key := key;
                          mock_db_path := mock_db_path (self w);
                          mock_jobs := mock_jobs (self w) |};
               stdout := stdout w |}).

Definition set_mock_db_path (path : string) : M unit :=
  fun w => (inr tt,
            {| self := {| granite_api_key := granite_api_key (self w);
                          mock_db_path := path;
                          mock_jobs := mock_jobs (self w) |};
               stdout := stdout w |}).

(** [try: body except Exception as e: handler(e)] *)
Definition try_except {A} (body : M A) (handler : exn -> M A) : M A :=
  fun w => match body w with
           | (inl e, w') => handler e w'
           | r => r
           end.

Declare Scope agent_scope.
Delimit Scope agent_scope with agent.
Notation "x <- m ;; k" := (bind m (fun x => k))
  (at level 61, m at next level, right associativity) : agent_scope.
Notation "m ;; k" := (bind m (fun _ => k))
  (at level 61, right associativity) : agent_scope.
Open Scope agent_scope.

(** [for x in xs: acc = body(acc, x)] *)
Fixpoint for_each {A B} (xs : list A) (body : B -> A -> M B) (acc : B) : M B :=
  match xs with
  | [] => ret acc
  | x :: xs' => acc' <- body acc x ;; for_each xs' body acc'
  end.

(* ------------------------------------------------------------------ *)
(** ** The tools of [CareerAgent] *)

(** The file system as seen by [_load_mock_job_db]: a path is absent, or
    names a file; opening and parsing a file either raises (the file cannot
    be opened, or does not hold JSON) or yields the parsed array of job
    objects. *)
Inductive file :=
| Raises (e : exn)
| JobsJson (jobs : list JobPosting).

Definition filesystem := string -> option file.

(** [os.path.exists(path)] *)
Definition path_exists (fs : filesystem) (path : string) : bool :=
  match fs path with Some _ => true | None => false end.

(** [with open(path, 'r') as f: json.load(f)] *)
Definition open_and_load (fs : filesystem) (path : string) : M (list JobPosting) :=
  match fs path with
  | Some (JobsJson jobs) => ret jobs
  | Some (Raises e) => raise e
  | None =>
      raise {| exn_kind := OSError;
               exn_text := "[Errno 2] No such file or directory: '" ++ path ++ "'" |}
  end.

Definition _load_mock_job_db (fs : filesystem) : M unit :=
  agent <- get_self ;;
  if path_exists fs (mock_db_path agent) then
    jobs <- open_and_load fs (mock_db_path agent) ;;
    set_mock_jobs jobs
  else
    set_mock_jobs [] ;;
    print ("Warning: Mock job database not found at " ++ mock_db_path agent
           ++ ". No jobs loaded.").

Definition __init__ (fs : filesystem) (key path : string) : M unit :=
  set_granite_api_key key ;;
  set_mock_db_path path ;;
  _load_mock_job_db fs ;;
  print "AI Career Agent Initialized.".

(** The object before [__init__] runs; its attributes are assigned by
    [__init__] before anything reads them. *)
Definition blank : CareerAgent :=
  {| granite_api_key := EmptyString; mock_db_path := EmptyString; mock_jobs := [] |}.

(** [CareerAgent(key, path)], started on a given standard output. *)
Definition new_agent (fs : filesystem) (key path : string) (out : list string)
  : (exn + unit) * world :=
  __init__ fs key path {| self := blank; stdout := out |}.

(** The test of the loop of [_find_jobs_tool]:
    [any(skill.lower() in job['description'].lower() for skill in skills)] *)
Definition job_matches (skills : list string) (job : JobPosting) : bool :=
  existsb (fun skill => Str.contains (Str.lower skill) (Str.lower (description job)))
          skills.

Definition _find_jobs_tool (skills : list string) : M (list JobPosting) :=
  print (Str.nl ++ "[Tool: Job Search] Searching for jobs with skills: "
         ++ Str.join ", " skills) ;;
  agent <- get_self ;;
  for_each (mock_jobs agent)
    (fun found_jobs job =>
       if job_matches skills job then ret (found_jobs ++ [job])
       else ret found_jobs)
    [].

Record analysis := {
  match_score : Z;
  skill_gaps : list string
}.

(** [sum(1 for skill in user_skills if skill in required_skills)] *)
Definition match_count (required_skills user_skills : list string) : Z :=
  fold_left Z.add
    (map (fun _ => 1) (filter (fun skill => Str.mem skill required_skills) user_skills))
    0.

(** [int((match_count / len(required_skills)) * 100) if required_skills else 0] *)
Definition score_of (required_skills : list string) (count : Z) : exn + Z :=
  match required_skills with
  | [] => inr 0
  | _ =>
      match PyNum.true_div count (Z.of_nat (List.length required_skills)) with
      | inl e => inl e
      | inr ratio =>
          match PyNum.float_mul_int ratio 100 with
          | inl e => inl e
          | inr percent => PyNum.int_of_float percent
          end
      end
  end.

(** [[skill for skill in required_skills if skill not in user_skills]] *)
Definition gaps_of (required_skills user_skills : list string) : list string :=
  filter (fun skill => negb (Str.mem skill user_skills)) required_skills.

(** The body of [_analyze_skills_tool] after its [print], for a given
    reference list. *)
Definition analyze_with (required_skills user_skills : list string) : exn + analysis :=
  match score_of required_skills (match_count required_skills user_skills) with
  | inl e => inl e
  | inr score =>
      inr {| match_score := score;
             skill_gaps := gaps_of required_skills user_skills |}
  end.

Definition required_skills : list string :=
  ["Python"; "Data Analysis"; "SQL"; "Machine Learning"; "AI"; "Algorithms"].

Definition _analyze_skills_tool (user_skills : list string) (job_description : string)
  : M analysis :=
  print "[Tool: Skill Analysis] Analyzing user skills against job requirements..." ;;
  lift (analyze_with required_skills user_skills).

Definition recommendations : list (string * string) :=
  [ ("Python", "Coursera: Python for Everybody");
    ("Data Analysis", "DataCamp: Data Analyst with Python");
    ("SQL", "Udemy: The Complete SQL Bootcamp");
    ("Machine Learning", "Coursera: Machine Learning by Andrew Ng");
    ("AI", "IBM SkillsBuild: Getting Started with AI") ].

(** [table.get(k, default)] *)
Fixpoint get_or (table : list (string * string)) (k default : string) : string :=
  match table with
  | [] => default
  | (k', v) :: table' => if String.eqb k k' then v else get_or table' k default
  end.

(** [[recommendations.get(skill, f"Online resources for {skill}") for skill in skill_gaps]] *)
Definition recommend (gaps : list string) : list string :=
  map (fun skill => get_or recommendations skill ("Online resources for " ++ skill)) gaps.

Definition _recommend_learning_tool (gaps : list string) : M (list string) :=
  print ("[Tool: Learning Resources] Recommending courses for skill gaps: "
         ++ Str.join ", " gaps) ;;
  ret (recommend gaps).

(* ------------------------------------------------------------------ *)
(** ** The workflow [run_agent] *)

(** The argument of [run_agent]: a dict that may hold ['skills'] and
    ['goal']. *)
Record user_profile := {
  skills : option (list string);
  goal : option string
}.

Definition strs (l : list string) : value := VList (map VStr l).

Definition no_jobs_report : dict :=
  [ ("status", VStr "No jobs found.");
    ("report", VStr "No suitable job listings were found with your current skills.") ].

(** The body of the loop of [run_agent] over [job_listings]. *)
Definition run_agent_step (user_skills : list string)
  (final_report : dict) (job : JobPosting) : M dict :=
  analysis <- _analyze_skills_tool user_skills (description job) ;;
  let job_match :=
    [ ("title", VStr (title job));
      ("company", VStr (company job));
      ("match_score", VInt (match_score analysis)) ] in
  job_match <-
    match skill_gaps analysis with
    | [] => ret job_match
    | _ =>
        learning_plan <- _recommend_learning_tool (skill_gaps analysis) ;;
        ret (dict_set "learning_plan" (strs learning_plan)
               (dict_set "skill_gaps" (strs (skill_gaps analysis)) job_match))
    end ;;
  ret (dict_append "matches" (VDict job_match) final_report).

Definition run_agent (profile : user_profile) : M value :=
  print (Str.nl ++ "--- Agent Workflow Initiated ---") ;;
  let user_skills := match skills profile with Some l => l | None => [] end in
  job_listings <- _find_jobs_tool user_skills ;;
  match job_listings with
  | [] => ret (VDict no_jobs_report)
  | _ =>
      final_report <-
        for_each job_listings (run_agent_step user_skills)
          [ ("status", VStr "Success"); ("matches", VList []) ] ;;
      print (Str.nl ++ "--- Agent Workflow Complete ---") ;;
      ret (VDict final_report)
  end.

(* ------------------------------------------------------------------ *)
(** ** The endpoint [find_jobs] of the HTTP shell *)

(** The answer of [find_jobs] to a request without skills. *)
Definition error_no_skills : value * Z :=
  (VDict [ ("status", VStr "Error");
           ("report", VStr "Please provide a list of skills.") ], 400).

(** [find_jobs()] on a request whose JSON body may hold ['skills']; the
    result is the JSON body and the HTTP status of the response. *)
Definition find_jobs (request_skills : option (list string)) : M (value * Z) :=
  let skills := match request_skills with Some l => l | None => [] end in
  match skills with
  | [] => ret error_no_skills
  | _ =>
      try_except
        (job_listings <- _find_jobs_tool skills ;;
         match job_listings with
         | [] =>
             ret (VDict [ ("status", VStr "Success");
                          ("matches", VList []);
                          ("report", VStr "No suitable jobs found.") ], 200)
         | _ =>
             report <- run_agent {| skills := Some skills; goal := None |} ;;
             ret (report, 200)
         end)
        (fun e =>
           ret (VDict [ ("status", VStr "Error");
                        ("report", VStr ("An error occurred: " ++ exn_text e)) ], 500))
  end.

(** The database written by the main block of [Agentic_AI_Integration.py]. *)
Definition mock_jobs_data : list JobPosting :=
  [ {| title := "Data Scientist"; company := "TechCorp";
       description := "Looking for a Data Scientist with strong Python, SQL, and Machine Learning skills." |};
    {| title := "Web Developer"; company := "Code Inc.";
       description := "Experienced Web Developer needed with JavaScript, HTML, and CSS skills." |};
    {| title := "AI Engineer"; company := "AI Innovators";
       description := "Seeking an AI Engineer with expertise in AI, Machine Learning, and algorithms." |};
    {| title := "Business Analyst"; company := "Global Solutions";
       description := "Need a Business Analyst with strong communication and analysis skills." |} ].

Definition demo_agent : CareerAgent :=
  {| granite_api_key := "YOUR_GRANITE_API_KEY";
     mock_db_path := "mock_job_db.json";
     mock_jobs := mock_jobs_data |}.

Definition demo_world : world := {| self := demo_agent; stdout := [] |}.

Definition user_data : user_profile :=
  {| skills := Some ["Python"; "Algorithms"; "Communication"; "Data Analysis"];
     goal := Some "Find a job as a Data Scientist." |}.

(** A file system without the database, and one where the file is there
    but cannot be opened. *)
Definition no_such_file : filesystem := fun _ => None.

Definition permission_denied : exn :=
  {| exn_kind := OSError;
     exn_text := "[Errno 13] Permission denied: 'mock_job_db.json'" |}.

Definition locked_file : filesystem := fun _ => Some (Raises permission_denied).

(* ------------------------------------------------------------------ *)
(** ** Notions used to state the properties *)




(** The capital sigma, and the word of four Greek capital letters that
    ends in it (omicron, delta, omicron, sigma), with a catalog of one job
    whose description is that word. *)
Definition capital_sigma : string := Str.encode [931].

Definition odos : string := Str.encode [927; 916; 927; 931].



(** [Filtered P l l']: [l'] keeps exactly the entries of [l] that satisfy
    [P], each as often as in [l] and in the order of [l]. *)
Inductive Filtered {A : Type} (P : A -> Prop) : list A -> list A -> Prop :=
| Filtered_nil : Filtered P [] []
| Filtered_keep x l l' : P x -> Filtered P l l' -> Filtered P (x :: l) (x :: l')
| Filtered_drop x l l' : ~ P x -> Filtered P l l' -> Filtered P (x :: l) l'.

(** The reference skills that the user has. *)
Definition present_of (required_skills user_skills : list string) : list string :=
  filter (fun skill => Str.mem skill user_skills) required_skills.

(** The position of a real [m + a/b] between the integers [m] and [m + 1],
    as the [location] that the rounding of [SpecFloat] works with. *)
Definition loc_ok (a b : Z) (l : location) : Prop :=
  0 <= a < b /\
  match l with
  | loc_Exact => a = 0
  | loc_Inexact Lt => 0 < 2 * a < b
  | loc_Inexact Eq => 2 * a = b
  | loc_Inexact Gt => b < 2 * a
  end.

(** A method is read-only when, on every agent, it leaves the agent as it
    is, only appends lines to the standard output, and its result and the
    lines it prints do not depend on what was printed before. *)
Definition readonly {A : Type} (m : M A) : Prop :=
  forall agent, exists (r : exn + A) (lines : list string),
    forall out,
      m {| self := agent; stdout := out |}
      = (r, {| self := agent; stdout := out ++ lines |}).

(** The lines that a method prints when run in the world [w]. *)
Definition printed {A : Type} (m : M A) (w : world) : list string :=
  skipn (List.length (stdout w)) (stdout (snd (m w))).

Definition job_search_line (skills : list string) : string :=
  Str.nl ++ "[Tool: Job Search] Searching for jobs with skills: " ++ Str.join ", " skills.

(** [sys.maxsize] (of 64-bit CPython): no list of Python has more
    entries. *)
Definition sys_maxsize : Z := 2 ^ 63 - 1.

(** The score that the analysis returns for a given match count (against
    the six reference skills), where it returns one. *)
Definition score_value (count : Z) : Z :=
  match score_of required_skills count with
  | inr score => score
  | inl _ => 0
  end.

(** The report of [run_agent], written as a function of the catalog and
    of the user's skills: the entry of one found job, and the report. *)
Definition job_match_of (user_skills : list string) (job : JobPosting) : dict :=
  let base :=
    [ ("title", VStr (title job));
      ("company", VStr (company job));
      ("match_score", VInt (score_value (match_count required_skills user_skills))) ] in
  match gaps_of required_skills user_skills with
  | [] => base
  | gaps => base ++ [ ("skill_gaps", strs gaps); ("learning_plan", strs (recommend gaps)) ]
  end.

Definition report_of (catalog : list JobPosting) (user_skills : list string) : dict :=
  match filter (job_matches user_skills) catalog with
  | [] => no_jobs_report
  | found =>
      [ ("status", VStr "Success");
        ("matches", VList (map (fun job => VDict (job_match_of user_skills job)) found)) ]
  end.

Definition skills_of (profile : user_profile) : list string :=
  match skills profile with Some l => l | None => [] end.

Definition initiated_line : string := Str.nl ++ "--- Agent Workflow Initiated ---".

(* ------------------------------------------------------------------ *)
(** ** The other endpoints of the HTTP shell *)

Definition UPLOAD_FOLDER : string := "uploads".

(** The set [ALLOWED_EXTENSIONS]; the code only tests membership. *)
Definition ALLOWED_EXTENSIONS : list string := ["txt"; "pdf"; "doc"; "docx"].

(** [s.rsplit('.', 1)] for a string that holds a dot: what stands before
    the last dot and what stands after it.  Without a dot the split has
    one part only, and [None] stands for it. *)
Fixpoint rsplit_dot (s : string) : option (string * string) :=
  match s with
  | EmptyString => None
  | String c s' =>
      match rsplit_dot s' with
      | Some (before, after) => Some (String c before, after)
      | None => if Ascii.eqb c "." then Some (EmptyString, s') else None
      end
  end.

(** [allowed_file(filename)]:
    ['.' in filename and filename.rsplit('.', 1)[1].lower() in ALLOWED_EXTENSIONS].
    The index [[1]] is evaluated only after the test for a dot. *)
Definition allowed_file (filename : string) : bool :=
  Str.contains "." filename &&
  match rsplit_dot filename with
  | Some (_, extension) => Str.mem (Str.lower extension) ALLOWED_EXTENSIONS
  | None => false
  end.

Definition error_report (text : string) : value :=
  VDict [ ("status", VStr "Error"); ("report", VStr text) ].

(** One entry of [simulated_resources]. *)
Definition resource (title url : string) : value :=
  VDict [ ("title", VStr title); ("url", VStr url) ].

(** [learning_resources()] on a request whose JSON body may hold
    ['skill']: the JSON body and the HTTP status of the response. *)
Definition learning_resources (request_skill : option string) : value * Z :=
  let skill := match request_skill with Some s => s | None => EmptyString end in
  if String.eqb skill EmptyString then
    (error_report "Please provide a skill to search for.", 400)
  else
    let simulated_resources :=
      [ resource ("Intro to " ++ skill) ("https://example.com/" ++ skill ++ "-intro");
        resource ("Advanced " ++ skill ++ " Course")
                 ("https://example.com/" ++ skill ++ "-advanced");
        resource ("Certification in " ++ skill)
                 ("https://example.com/" ++ skill ++ "-cert") ] in
    (VDict [ ("status", VStr "Success");
             ("resources", VList simulated_resources);
             ("report", VStr EmptyString) ], 200).

(** The part ['resume'] of an upload: its file name and what it holds. *)
Record upload := {
  filename : string;
  content : string
}.

(** The regular files on disk, by path. *)
Definition store := string -> option string.

(** [file.save(path)]: writes the file, new or over the one that is
    there; a path that ends in a slash names a directory, and the write
    raises. *)
Fixpoint ends_with_slash (s : string) : bool :=
  match s with
  | EmptyString => false
  | String c EmptyString => Ascii.eqb c "/"
  | String _ s' => ends_with_slash s'
  end.

Definition save_file (files : store) (path data : string) : exn + store :=
  if ends_with_slash path then
    inl {| exn_kind := OSError;
           exn_text := "[Errno 21] Is a directory: '" ++ path ++ "'" |}
  else inr (fun p => if String.eqb p path then Some data else files p).

(** [os.remove(path)] *)
Definition remove_file (files : store) (path : string) : exn + store :=
  match files path with
  | Some _ => inr (fun p => if String.eqb p path then None else files p)
  | None =>
      inl {| exn_kind := OSError;
             exn_text := "[Errno 2] No such file or directory: '" ++ path ++ "'" |}
  end.

(** [os.path.join(a, b)] on POSIX paths. *)
Definition path_join (a b : string) : string :=
  if String.prefix "/" b then b
  else if (String.eqb a EmptyString || ends_with_slash a)%bool then a ++ b
  else a ++ "/" ++ b.

(** The skills that [analyze_skills] uses in place of a parse of the
    file. *)
Definition simulated_skills : list string :=
  ["Python"; "Algorithms"; "Communication"; "Data Analysis"].

(** [analyze_skills()] on a request that may hold the part ['resume'];
    [secure_filename] is the function of that name of werkzeug, taken as
    a parameter.  In [if file and allowed_file(file.filename)] the upload
    [file] is true as soon as its name is not empty, which the test before
    has established.  The result is the response (or the exception that
    leaves the view), the files on disk and the world of the agent. *)
Definition analyze_skills (secure_filename : string -> string)
  (request_files : option upload) (files : store) (w : world)
  : (exn + (value * Z)) * store * world :=
  match request_files with
  | None => (inr (error_report "No resume file provided.", 400), files, w)
  | Some file =>
      if String.eqb (filename file) EmptyString then
        (inr (error_report "No file selected.", 400), files, w)
      else if allowed_file (filename file) then
        let name := secure_filename (filename file) in
        let filepath := path_join UPLOAD_FOLDER name in
        match save_file files filepath (content file) with
        | inl e => (inl e, files, w)
        | inr saved =>
            match run_agent {| skills := Some simulated_skills;
                               goal := Some "general career path" |} w with
            | (inl e, w') => (inl e, saved, w')
            | (inr report, w') =>
                match remove_file saved filepath with
                | inl e => (inl e, saved, w')
                | inr removed => (inr (report, 200), removed, w')
                end
            end
        end
      else (inr (error_report "File type not allowed.", 400), files, w)
  end.

(** The lines of the standard output of one run of the workflow. *)
Definition analysis_line : string :=
  "[Tool: Skill Analysis] Analyzing user skills against job requirements...".

Definition learning_line (gaps : list string) : string :=
  "[Tool: Learning Resources] Recommending courses for skill gaps: "
  ++ Str.join ", " gaps.

Definition complete_line : string := Str.nl ++ "--- Agent Workflow Complete ---".

(** What one turn of the loop of [run_agent] prints. *)
Definition step_lines (user_skills : list string) : list string :=
  match gaps_of required_skills user_skills with
  | [] => [analysis_line]
  | gaps => [analysis_line; learning_line gaps]
  end.

(** What [run_agent] prints, given the jobs that the Job Finder finds. *)
Definition workflow_lines (user_skills : list string) (found : list JobPosting)
  : list string :=
  initiated_line :: job_search_line user_skills ::
  match found with
  | [] => []
  | _ => List.concat (map (fun _ => step_lines user_skills) found) ++ [complete_line]
  end.

(** Two lists of skills name the same skills up to case. *)
Definition same_skills_caseless (s1 s2 : list string) : Prop :=
  (forall a, In a s1 -> exists b, In b s2 /\ Str.lower a = Str.lower b) /\
  (forall b, In b s2 -> exists a, In a s1 /\ Str.lower a = Str.lower b).

(* ------------------------------------------------------------------ *)
(** * Properties *)

(** ** Rounding in binary64

    [binary_round_aux] rounds to nearest, ties to even.  In the range
    without underflow and overflow it returns a 53-bit mantissa within
    half a unit in the last place of the value it is given. *)

Module Rounding.

(** Replaces the closed powers of two by their values. *)
Ltac eval_pow2 :=
  repeat match goal with
         | H : context [2 ^ ?e] |- _ =>
             let v := eval cbv in (2 ^ e) in change (2 ^ e) with v in H
         | |- context [2 ^ ?e] =>
             let v := eval cbv in (2 ^ e) in change (2 ^ e) with v
         end.

Lemma digits2_pos_bounds (p : positive) :
  2 ^ (Zpos (digits2_pos p) - 1) <= Zpos p < 2 ^ Zpos (digits2_pos p).
Proof.
  induction p as [p IH | p IH | ]; cbn [digits2_pos].
  - rewrite Pos2Z.inj_succ.
    replace (Z.succ (Zpos (digits2_pos p)) - 1) with (Z.succ (Zpos (digits2_pos p) - 1)) by lia.
    rewrite !Z.pow_succ_r by lia. lia.
  - rewrite Pos2Z.inj_succ.
    replace (Z.succ (Zpos (digits2_pos p)) - 1) with (Z.succ (Zpos (digits2_pos p) - 1)) by lia.
    rewrite !Z.pow_succ_r by lia. lia.
  - cbn. lia.
Qed.

Lemma Zdigits2_unique (m d : Z) :
  2 ^ (d - 1) <= m < 2 ^ d -> 0 < d -> Zdigits2 m = d.
Proof.
  intros Hm Hd.
  assert (0 < m) by (pose proof (Z.pow_pos_nonneg 2 (d - 1)); lia).
  destruct m as [ | p | p ]; try lia.
  cbn [Zdigits2].
  pose proof (digits2_pos_bounds p) as Hp.
  set (d' := Zpos (digits2_pos p)) in *.
  assert (0 < d') by (subst d'; lia).
  destruct (Z.lt_trichotomy d' d) as [Hlt | [Heq | Hgt]]; [ | assumption | ].
  - assert (2 ^ d' <= 2 ^ (d - 1)) by (apply Z.pow_le_mono_r; lia). lia.
  - assert (2 ^ d <= 2 ^ (d' - 1)) by (apply Z.pow_le_mono_r; lia). lia.
Qed.

Lemma loc_ok_record (m : Z) (l : location) :
  loc_of_shr_record (shr_record_of_loc m l) = l /\
  shr_m (shr_record_of_loc m l) = m.
Proof. destruct l as [ | [ | | ] ]; split; reflexivity. Qed.

Lemma shr_1_ok (mrs : shr_record) (a b : Z) :
  0 <= shr_m mrs -> loc_ok a b (loc_of_shr_record mrs) ->
  0 <= shr_m (shr_1 mrs) /\
  exists a', loc_ok a' (2 * b) (loc_of_shr_record (shr_1 mrs)) /\
             2 * b * shr_m (shr_1 mrs) + a' = b * shr_m mrs + a.
Proof.
  destruct mrs as [m r s]. cbn [shr_m]. intros Hm [Hab Hl].
  destruct m as [ | [p | p | ] | p ]; try lia;
    destruct r, s; cbn [shr_1 shr_m loc_of_shr_record orb] in Hl |- *;
    (split; [ lia | ]).
  all: first [ solve [ exists a; unfold loc_ok; cbv beta iota; lia ]
             | solve [ exists (b + a); unfold loc_ok; cbv beta iota; lia ] ].
Qed.

Lemma iter_shr_1_ok (p : positive) :
  forall (mrs : shr_record) (a b : Z),
    0 <= shr_m mrs -> loc_ok a b (loc_of_shr_record mrs) ->
    0 <= shr_m (iter_pos shr_1 p mrs) /\
    exists a', loc_ok a' (2 ^ Zpos p * b) (loc_of_shr_record (iter_pos shr_1 p mrs)) /\
               2 ^ Zpos p * b * shr_m (iter_pos shr_1 p mrs) + a' = b * shr_m mrs + a.
Proof.
  induction p as [p IH | p IH | ]; intros mrs a b Hm Hl; cbn [iter_pos].
  - destruct (shr_1_ok mrs a b Hm Hl) as [H1 [a1 [L1 E1]]].
    destruct (IH _ _ _ H1 L1) as [H2 [a2 [L2 E2]]].
    destruct (IH _ _ _ H2 L2) as [H3 [a3 [L3 E3]]].
    split; [ assumption | ]. exists a3.
    replace (2 ^ Zpos p~1 * b) with (2 ^ Zpos p * (2 ^ Zpos p * (2 * b))).
    + split; [ assumption | lia ].
    + replace (Zpos p~1) with (Zpos p + Zpos p + 1) by lia.
      rewrite !Z.pow_add_r by lia. change (2 ^ 1) with 2. ring.
  - destruct (IH _ _ _ Hm Hl) as [H2 [a2 [L2 E2]]].
    destruct (IH _ _ _ H2 L2) as [H3 [a3 [L3 E3]]].
    split; [ assumption | ]. exists a3.
    replace (2 ^ Zpos p~0 * b) with (2 ^ Zpos p * (2 ^ Zpos p * b)).
    + split; [ assumption | lia ].
    + replace (Zpos p~0) with (Zpos p + Zpos p) by lia.
      rewrite Z.pow_add_r by lia. ring.
  - destruct (shr_1_ok mrs a b Hm Hl) as [H1 [a1 [L1 E1]]].
    split; [ assumption | ]. exists a1. change (2 ^ 1) with 2. split; [ assumption | lia ].
Qed.

Lemma shr_ok (mrs : shr_record) (e n a b : Z) :
  0 <= n -> 0 <= shr_m mrs -> loc_ok a b (loc_of_shr_record mrs) ->
  snd (shr mrs e n) = e + n /\
  0 <= shr_m (fst (shr mrs e n)) /\
  exists a', loc_ok a' (2 ^ n * b) (loc_of_shr_record (fst (shr mrs e n))) /\
             2 ^ n * b * shr_m (fst (shr mrs e n)) + a' = b * shr_m mrs + a.
Proof.
  intros Hn Hm Hl. destruct n as [ | p | p ]; [ | | lia ]; cbn [shr fst snd].
  - split; [ lia | ]. split; [ assumption | ]. exists a.
    change (2 ^ 0) with 1. rewrite Z.mul_1_l. split; [ assumption | lia ].
  - split; [ reflexivity | ]. apply iter_shr_1_ok; assumption.
Qed.

Lemma round_nearest_even_ok (m a b : Z) (l : location) :
  loc_ok a b l ->
  m <= round_nearest_even m l <= m + 1 /\
  2 * Z.abs (b * round_nearest_even m l - (b * m + a)) <= b.
Proof.
  intros [Hab Hl]. unfold round_nearest_even.
  destruct l as [ | [ | | ] ]; [ | destruct (Z.even m) | | ]; lia.
Qed.

Lemma fexp_normal (e : Z) :
  -1074 <= e - 53 -> fexp 53 1024 e = e - 53.
Proof. intros He. unfold fexp, emin. lia. Qed.

Lemma shr_carry (e : Z) :
  shr (shr_record_of_loc (2 ^ 53) loc_Exact) e 1 =
  ({| shr_m := Zpos (Z.to_pos (2 ^ 52)); shr_r := false; shr_s := false |}, e + 1).
Proof. reflexivity. Qed.

(** Rounding a positive [mx + a/b] of at least 53 binary digits, scaled
    by [2 ^ ex], to the nearest float: no underflow, no overflow. *)
Lemma binary_round_aux_normal (sx : bool) (mx ex a b d : Z) (l : location) :
  2 ^ (d - 1) <= mx < 2 ^ d -> 53 <= d ->
  -1074 <= d + ex - 53 -> d + ex <= 1023 ->
  loc_ok a b l ->
  exists M t,
    binary_round_aux 53 1024 sx mx ex l = S754_finite sx (Z.to_pos M) (ex + t) /\
    2 ^ 52 <= M < 2 ^ 53 /\
    (t = d - 53 \/ t = d - 52) /\
    2 * Z.abs (b * (M * 2 ^ t) - (b * mx + a)) <= b * 2 ^ (d - 53).
Proof.
  intros Hmx Hd Hlo Hhi Hl.
  assert (Hb : 0 < b) by (destruct Hl; lia).
  unfold binary_round_aux, shr_fexp.
  rewrite (Zdigits2_unique mx d) by (assumption || lia).
  rewrite fexp_normal by lia.
  replace (d + ex - 53 - ex) with (d - 53) by lia.
  set (n := d - 53) in *.
  destruct (loc_ok_record mx l) as [Hrl Hrm].
  destruct (shr_ok (shr_record_of_loc mx l) ex n a b) as [He [Hm' [a' [Hl' Heq]]]];
    [ lia | rewrite Hrm; lia | rewrite Hrl; assumption | ].
  rewrite Hrm in Heq.
  destruct (shr (shr_record_of_loc mx l) ex n) as [mrs' e'] eqn:Hshr.
  cbn [fst snd] in *. subst e'.
  set (m' := shr_m mrs') in *. set (l' := loc_of_shr_record mrs') in *.
  set (P := 2 ^ n) in *.
  assert (HP : 0 < P) by (apply Z.pow_pos_nonneg; lia).
  assert (Hd2 : 2 ^ d = 2 ^ 53 * P).
  { subst P n. rewrite <- Z.pow_add_r by lia. f_equal. lia. }
  assert (Hd1 : 2 ^ (d - 1) = 2 ^ 52 * P).
  { subst P n. rewrite <- Z.pow_add_r by lia. f_equal. lia. }
  assert (Hm'r : 2 ^ 52 <= m' < 2 ^ 53).
  { destruct Hl' as [Ha' _]. destruct Hl as [Ha _]. rewrite Hd2, Hd1 in Hmx.
    set (Q := P * b) in *.
    assert (HQ : 0 < Q) by (subst Q; apply Z.mul_pos_pos; assumption).
    assert (H1 : Q * 2 ^ 52 <= b * mx).
    { subst Q. replace (P * b * 2 ^ 52) with (b * (2 ^ 52 * P)) by ring.
      apply Z.mul_le_mono_nonneg_l; lia. }
    assert (H2 : b * (mx + 1) <= Q * 2 ^ 53).
    { subst Q. replace (P * b * 2 ^ 53) with (b * (2 ^ 53 * P)) by ring.
      apply Z.mul_le_mono_nonneg_l; lia. }
    split.
    - assert (Q * 2 ^ 52 < Q * (m' + 1)) by lia.
      apply Z.mul_lt_mono_pos_l in H; lia.
    - assert (Q * m' < Q * 2 ^ 53) by lia.
      apply Z.mul_lt_mono_pos_l in H; lia. }
  destruct (round_nearest_even_ok m' a' (P * b) l' Hl') as [HM0 HM0e].
  set (M0 := round_nearest_even m' l') in *.
  destruct (Z.eq_dec M0 (2 ^ 53)) as [Hc | Hc].
  - (* the rounding carries into a 54th digit *)
    rewrite Hc.
    rewrite (Zdigits2_unique (2 ^ 53) 54) by (cbn; lia).
    rewrite fexp_normal by lia.
    replace (54 + (ex + n) - 53 - (ex + n)) with 1 by lia.
    rewrite shr_carry. cbn [shr_m].
    replace (ex + n + 1 <=? 1024 - 53) with true by (symmetry; apply Z.leb_le; lia).
    exists (2 ^ 52), (n + 1). rewrite Z.add_assoc.
    split; [ reflexivity | ]. split; [ lia | ]. split; [ right; lia | ].
    replace (2 ^ (n + 1)) with (2 * P) by (subst P; rewrite Z.pow_add_r by lia; change (2 ^ 1) with 2; ring).
    replace (b * (2 ^ 52 * (2 * P))) with (P * b * M0) by (rewrite Hc; ring).
    rewrite Heq in HM0e. lia.
  - assert (HM0r : 2 ^ 52 <= M0 < 2 ^ 53) by lia.
    rewrite (Zdigits2_unique M0 53) by (assumption || lia).
    rewrite fexp_normal by lia.
    replace (53 + (ex + n) - 53 - (ex + n)) with 0 by lia.
    cbn [shr shr_record_of_loc shr_m].
    destruct M0 as [ | pM | pM ] eqn:HpM; [ lia | | lia ].
    replace (ex + n <=? 1024 - 53) with true by (symmetry; apply Z.leb_le; lia).
    exists (Zpos pM), n.
    split; [ reflexivity | ]. split; [ lia | ]. split; [ left; reflexivity | ].
    rewrite Heq in HM0e. lia.
Qed.


Lemma new_location_6_ok (r : Z) :
  0 <= r < 6 -> loc_ok r 6 (new_location 6 r).
Proof.
  intros Hr.
  assert (H : r = 0 \/ r = 1 \/ r = 2 \/ r = 3 \/ r = 4 \/ r = 5) by lia.
  destruct H as [-> | [-> | [-> | [-> | [-> | ->]]]]]; unfold loc_ok; cbn; lia.
Qed.

Lemma digits_below (p : positive) (c : Z) :
  0 <= c -> Zpos p < 2 ^ c -> 1 <= Zpos (digits2_pos p) <= c.
Proof.
  intros Hc Hp. split; [ lia | ].
  pose proof (digits2_pos_bounds p) as [Hlo _].
  destruct (Z_le_gt_dec (Zpos (digits2_pos p)) c) as [ | Hgt ]; [ assumption | ].
  assert (2 ^ c <= 2 ^ (Zpos (digits2_pos p) - 1)) by (apply Z.pow_le_mono_r; lia).
  lia.
Qed.

(** [k / 6] for an int [0 < k < 2^45]: the float nearest to the
    quotient, written in units of [2 ^ (-s)]. *)
Lemma div_6_rounding (k : positive) :
  Zpos k < 2 ^ 45 ->
  exists M t n s,
    SFdiv 53 1024 (S754_finite false k 0) (S754_finite false 6 0)
    = S754_finite false (Z.to_pos M) (t - s) /\
    11 <= s <= 55 /\
    2 ^ 55 <= Zpos k * 2 ^ s < 2 ^ 56 /\
    2 ^ 52 <= M < 2 ^ 53 /\
    (n = 0 \/ n = 1) /\ (t = n \/ t = n + 1) /\
    2 * Z.abs (6 * (M * 2 ^ t) - Zpos k * 2 ^ s) <= 6 * 2 ^ n.
Proof.
  intros Hk.
  pose proof (digits2_pos_bounds k) as Hd.
  pose proof (digits_below k 45 ltac:(lia) Hk) as Hd45.
  unfold SFdiv, SFdiv_core_binary. cbn [Zdigits2 xorb].
  set (d := Zpos (digits2_pos k)) in *.
  change (Zpos (digits2_pos 6)) with 3.
  replace (d + 0 - (3 + 0)) with (d - 3) by lia.
  rewrite fexp_normal by lia.
  replace (Z.min (d - 3 - 53) (0 - 0)) with (d - 56) by lia.
  replace (0 - 0 - (d - 56)) with (56 - d) by lia.
  set (s := 56 - d) in *.
  assert (Hs : 11 <= s <= 55) by lia.
  assert (HN : 2 ^ 55 <= Zpos k * 2 ^ s < 2 ^ 56).
  { assert (E1 : 2 ^ 55 = 2 ^ (d - 1) * 2 ^ s)
      by (rewrite <- Z.pow_add_r by lia; f_equal; lia).
    assert (E2 : 2 ^ 56 = 2 ^ d * 2 ^ s)
      by (rewrite <- Z.pow_add_r by lia; f_equal; lia).
    assert (0 < 2 ^ s) by (apply Z.pow_pos_nonneg; lia).
    rewrite E1, E2. nia. }
  replace (match s with Z0 => Zpos k | Zpos _ => Z.shiftl (Zpos k) s | Zneg _ => 0 end)
    with (Zpos k * 2 ^ s)
    by (destruct s; [ lia | rewrite Z.shiftl_mul_pow2 by lia; reflexivity | lia ]).
  set (N := Zpos k * 2 ^ s) in *.
  pose proof (Z.div_mod N 6 ltac:(lia)) as HNdm.
  pose proof (Z.mod_pos_bound N 6 ltac:(lia)) as Hr.
  unfold Z.div, Z.modulo in HNdm, Hr.
  destruct (Z.div_eucl N 6) as [q r]. cbn [fst snd].
  assert (Hq : 2 ^ 52 <= q < 2 ^ 54) by lia.
  assert (Hdq : exists n, (n = 0 \/ n = 1) /\ 2 ^ (n + 53 - 1) <= q < 2 ^ (n + 53)).
  { destruct (Z_lt_ge_dec q (2 ^ 53)); [ exists 0 | exists 1 ]; cbn; lia. }
  destruct Hdq as [n [Hn Hqn]].
  destruct (binary_round_aux_normal false q (d - 56) r 6 (n + 53) (new_location 6 r))
    as [M [t [HR [HM [Ht HE]]]]];
    [ assumption | lia | lia | lia | apply new_location_6_ok; assumption | ].
  exists M, t, n, s.
  replace (t - s) with (d - 56 + t) by lia.
  split; [ assumption | ]. split; [ assumption | ]. split; [ assumption | ].
  split; [ assumption | ]. split; [ assumption | ]. split; [ lia | ].
  replace (n + 53 - 53) with n in HE by lia. fold N. rewrite HNdm. exact HE.
Qed.

(** [k / 6] for an int [0 < k < 2^63]: a normal float, far from
    overflow. *)
Lemma div_6_finite (k : positive) :
  Zpos k < 2 ^ 63 ->
  exists M E,
    SFdiv 53 1024 (S754_finite false k 0) (S754_finite false 6 0)
    = S754_finite false (Z.to_pos M) E /\
    2 ^ 52 <= M < 2 ^ 53 /\ -900 <= E <= 900.
Proof.
  intros Hk.
  pose proof (digits2_pos_bounds k) as Hd.
  pose proof (digits_below k 63 ltac:(lia) Hk) as Hd63.
  unfold SFdiv, SFdiv_core_binary. cbn [Zdigits2 xorb].
  set (d := Zpos (digits2_pos k)) in *.
  change (Zpos (digits2_pos 6)) with 3.
  replace (d + 0 - (3 + 0)) with (d - 3) by lia.
  rewrite fexp_normal by lia.
  set (e' := Z.min (d - 3 - 53) (0 - 0)).
  set (s := 0 - 0 - e').
  assert (Hs : 0 <= s <= 55 /\ 56 - d <= s) by (subst s e'; lia).
  assert (HN : 2 ^ 55 <= Zpos k * 2 ^ s < 2 ^ 63).
  { assert (Hp : 0 < 2 ^ s) by (apply Z.pow_pos_nonneg; lia).
    destruct (Z_le_gt_dec d 56) as [Hle | Hgt].
    - assert (Hs' : s = 56 - d) by (subst s e'; lia).
      assert (E1 : 2 ^ 55 = 2 ^ (d - 1) * 2 ^ s)
        by (rewrite <- Z.pow_add_r by lia; f_equal; lia).
      assert (E2 : 2 ^ 56 = 2 ^ d * 2 ^ s)
        by (rewrite <- Z.pow_add_r by lia; f_equal; lia).
      assert (Hlt : Zpos k * 2 ^ s < 2 ^ 56) by (rewrite E2; nia).
      split; [ rewrite E1; nia | lia ].
    - assert (Hs' : s = 0) by (subst s e'; lia).
      rewrite Hs'. change (2 ^ 0) with 1. rewrite Z.mul_1_r.
      assert (2 ^ 56 <= 2 ^ (d - 1)) by (apply Z.pow_le_mono_r; lia).
      lia. }
  replace (match s with Z0 => Zpos k | Zpos _ => Z.shiftl (Zpos k) s | Zneg _ => 0 end)
    with (Zpos k * 2 ^ s)
    by (destruct s; [ change (2 ^ 0) with 1; lia
                    | rewrite Z.shiftl_mul_pow2 by lia; reflexivity | lia ]).
  set (N := Zpos k * 2 ^ s) in *.
  pose proof (Z.div_mod N 6 ltac:(lia)) as HNdm.
  pose proof (Z.mod_pos_bound N 6 ltac:(lia)) as Hr.
  unfold Z.div, Z.modulo in HNdm, Hr.
  destruct (Z.div_eucl N 6) as [q r]. cbn [fst snd] in *.
  assert (Hq : 2 ^ 52 <= q < 2 ^ 61) by lia.
  destruct q as [ | pq | pq ]; [ lia | | lia ].
  pose proof (digits2_pos_bounds pq) as Hdq.
  pose proof (digits_below pq 61 ltac:(lia) ltac:(lia)) as Hdq61.
  set (dq := Zpos (digits2_pos pq)) in *.
  assert (Hdq53 : 53 <= dq).
  { destruct (Z_le_gt_dec 53 dq) as [ | Hgt ]; [ assumption | ].
    assert (2 ^ dq <= 2 ^ 52) by (apply Z.pow_le_mono_r; lia). lia. }
  destruct (binary_round_aux_normal false (Zpos pq) e' r 6 dq (new_location 6 r))
    as [M [t [HR [HM [Ht HE]]]]];
    [ assumption | assumption | subst e'; lia | subst e'; lia
    | apply new_location_6_ok; assumption | ].
  exists M, (e' + t). split; [ assumption | ]. split; [ assumption | subst e'; lia ].
Qed.

Lemma mul_100_rounding (M E : Z) :
  2 ^ 52 <= M < 2 ^ 53 -> -900 <= E <= 900 ->
  exists M2 t2 n2,
    SFmul 53 1024 (S754_finite false (Z.to_pos M) E)
                  (S754_finite false 7036874417766400 (-46))
    = S754_finite false (Z.to_pos M2) (E - 46 + t2) /\
    2 ^ 52 <= M2 < 2 ^ 53 /\
    (n2 = 52 \/ n2 = 53) /\ (t2 = n2 \/ t2 = n2 + 1) /\
    Z.abs (M2 * 2 ^ (t2 - 46) - 100 * M) <= 2 ^ (n2 - 47).
Proof.
  intros HM HE. unfold SFmul. cbn [xorb].
  rewrite Pos2Z.inj_mul, Z2Pos.id by lia.
  change (Z.pos 7036874417766400) with (100 * 2 ^ 46).
  set (mx := M * (100 * 2 ^ 46)).
  assert (Hmx : 2 ^ 104 <= mx < 2 ^ 106) by (subst mx; lia).
  assert (Hd : exists n2, (n2 = 52 \/ n2 = 53) /\ 2 ^ (n2 + 53 - 1) <= mx < 2 ^ (n2 + 53)).
  { destruct (Z_lt_ge_dec mx (2 ^ 105)); [ exists 52 | exists 53 ]; cbn; lia. }
  destruct Hd as [n2 [Hn2 Hmxn]].
  destruct (binary_round_aux_normal false mx (E + -46) 0 1 (n2 + 53) loc_Exact)
    as [M2 [t2 [HR [HM2 [Ht2 HErr]]]]];
    [ assumption | lia | lia | lia | unfold loc_ok; lia | ].
  exists M2, t2, n2.
  replace (E - 46 + t2) with (E + -46 + t2) by lia.
  split; [ assumption | ]. split; [ assumption | ]. split; [ assumption | ].
  split; [ lia | ].
  replace (n2 + 53 - 53) with n2 in HErr by lia.
  subst mx. clear - Hn2 Ht2 HErr.
  assert (C2 : (n2 = 52 /\ t2 = 52) \/ (n2 = 52 /\ t2 = 53) \/
               (n2 = 53 /\ t2 = 53) \/ (n2 = 53 /\ t2 = 54)) by lia.
  clear Hn2 Ht2.
  destruct C2 as [[-> ->] | [[-> ->] | [[-> ->] | [-> ->]]]]; eval_pow2; lia.
Qed.


(** The arithmetic behind [int((k / 6) * 100)]: the two roundings move
    the value by less than the distance of [100 k / 6] to the next
    integer, and not at all when that quotient is an integer. *)
Lemma truncation_exact (k s M1 t1 n1 M2 t2 n2 : Z) :
  0 < k -> 11 <= s ->
  (n1 = 0 \/ n1 = 1) -> (t1 = n1 \/ t1 = n1 + 1) ->
  2 * Z.abs (6 * (M1 * 2 ^ t1) - k * 2 ^ s) <= 6 * 2 ^ n1 ->
  (n2 = 52 \/ n2 = 53) -> (t2 = n2 \/ t2 = n2 + 1) ->
  Z.abs (M2 * 2 ^ (t2 - 46) - 100 * M1) <= 2 ^ (n2 - 47) ->
  Z.shiftl M2 (t1 - s - 46 + t2) = 100 * k / 6.
Proof.
  intros Hk Hs Hn1 Ht1 H1 Hn2 Ht2 H2.
  set (p := 2 ^ (s - 11)).
  assert (Hp : 0 < p) by (apply Z.pow_pos_nonneg; lia).
  assert (HP : 2 ^ s = 2048 * p).
  { subst p. change 2048 with (2 ^ 11). rewrite <- Z.pow_add_r by lia. f_equal. lia. }
  rewrite HP in H1.
  set (c := t1 + t2 - 46).
  assert (Hc : 6 <= c <= 10) by (clear - Hn1 Ht1 Hn2 Ht2; lia).
  replace (t1 - s - 46 + t2) with (- (s - c)) by lia.
  rewrite Z.shiftl_opp_r, Z.shiftr_div_pow2 by lia.
  assert (HD : 2 ^ (s - c) = 2 ^ (11 - c) * p).
  { subst p. rewrite <- Z.pow_add_r by lia. f_equal. lia. }
  rewrite HD.
  pose proof (Z.div_mod (100 * k) 6 ltac:(lia)) as Hj.
  pose proof (Z.mod_pos_bound (100 * k) 6 ltac:(lia)) as Hrho.
  set (j := 100 * k / 6) in *. set (rho := (100 * k) mod 6) in *.
  assert (Hjp : 100 * (k * p) = 6 * (j * p) + rho * p).
  { replace (100 * (k * p)) with (100 * k * p) by ring. rewrite Hj. ring. }
  assert (Hrho' : rho = 0 \/ rho = 2 \/ rho = 4) by (clear - Hj Hrho; lia).
  replace (k * (2048 * p)) with (2048 * (k * p)) in H1 by ring.
  symmetry. apply Z.div_unique with (r := M2 - 2 ^ (11 - c) * (j * p)); [ left | ring ].
  subst c. clear HD Hc HP Hj Hk Hs Hrho.
  generalize dependent (k * p). generalize dependent (j * p).
  clearbody p. clear j. intros jp kp H1 Hjp.
  assert (C1 : (n1 = 0 /\ t1 = 0) \/ (n1 = 0 /\ t1 = 1) \/
               (n1 = 1 /\ t1 = 1) \/ (n1 = 1 /\ t1 = 2)) by (clear - Hn1 Ht1; lia).
  assert (C2 : (n2 = 52 /\ t2 = 52) \/ (n2 = 52 /\ t2 = 53) \/
               (n2 = 53 /\ t2 = 53) \/ (n2 = 53 /\ t2 = 54)) by (clear - Hn2 Ht2; lia).
  clear Hn1 Ht1 Hn2 Ht2.
  destruct Hrho' as [-> | Hrho'].
  - (* 100 k / 6 is an integer: both roundings are exact *)
    assert (Hu : kp = 3 * (17 * kp - jp) /\ jp = 50 * (17 * kp - jp)) by (clear - Hjp; lia).
    generalize dependent (17 * kp - jp). intros u [-> ->].
    destruct C1 as [[-> ->] | [[-> ->] | [[-> ->] | [-> ->]]]];
      destruct C2 as [[-> ->] | [[-> ->] | [[-> ->] | [-> ->]]]];
      eval_pow2; lia.
  - destruct C1 as [[-> ->] | [[-> ->] | [[-> ->] | [-> ->]]]];
      destruct C2 as [[-> ->] | [[-> ->] | [[-> ->] | [-> ->]]]];
      destruct Hrho' as [-> | ->];
      eval_pow2; lia.
Qed.

End Rounding.

(* ------------------------------------------------------------------ *)
(** ** The match score as a function of the match count *)

Lemma float_of_100 :
  PyNum.float_of_int 100 = inr (S754_finite false 7036874417766400 (-46)).
Proof. reflexivity. Qed.

(** For the six reference skills, [int((count / 6) * 100)] is the integer
    part of [100 count / 6]: no exception, and the floating-point detour
    loses nothing, for every count below [2^45]. *)
Lemma score_of_exact (count : Z) :
  0 <= count < 2 ^ 45 ->
  score_of required_skills count = inr (100 * count / 6).
Proof.
  intros Hc. destruct count as [ | k | k ]; [ reflexivity | | lia ].
  unfold score_of. cbn [required_skills List.length Z.of_nat Pos.of_succ_nat Pos.succ].
  unfold PyNum.true_div. cbn [Z.eqb Z.ltb Z.compare Z.abs Z.to_pos].
  unfold PyNum.prec, PyNum.emax.
  destruct (Rounding.div_6_rounding k) as [M1 [t1 [n1 [s [HR1 [Hs [HN [HM1 [Hn1 [Ht1 HE1]]]]]]]]]];
    [ lia | ].
  rewrite HR1.
  unfold PyNum.float_mul_int. rewrite float_of_100.
  unfold PyNum.prec, PyNum.emax.
  destruct (Rounding.mul_100_rounding M1 (t1 - s)) as [M2 [t2 [n2 [HR2 [HM2 [Hn2 [Ht2 HE2]]]]]]];
    [ assumption | lia | ].
  rewrite HR2. unfold PyNum.int_of_float, cond_Zopp.
  rewrite Z2Pos.id by lia. f_equal.
  apply (Rounding.truncation_exact (Zpos k) s M1 t1 n1 M2 t2 n2); (assumption || lia).
Qed.

(** For every count that the length of a list can give, the score is
    computed without an exception. *)
Lemma score_of_returns (count : Z) :
  0 <= count <= sys_maxsize ->
  score_of required_skills count = inr (score_value count).
Proof.
  intros Hc.
  assert (H : exists score, score_of required_skills count = inr score);
    [ | destruct H as [score H]; unfold score_value; rewrite H; reflexivity ].
  unfold sys_maxsize in Hc.
  destruct count as [ | k | k ]; [ eexists; reflexivity | | lia ].
  unfold score_of. cbn [required_skills List.length Z.of_nat Pos.of_succ_nat Pos.succ].
  unfold PyNum.true_div. cbn [Z.eqb Z.ltb Z.compare Z.abs Z.to_pos].
  unfold PyNum.prec, PyNum.emax.
  destruct (Rounding.div_6_finite k) as [M1 [E1 [HR1 [HM1 HE1]]]]; [ lia | ].
  rewrite HR1.
  unfold PyNum.float_mul_int. rewrite float_of_100.
  unfold PyNum.prec, PyNum.emax.
  destruct (Rounding.mul_100_rounding M1 E1) as [M2 [t2 [n2 [HR2 _]]]];
    [ assumption | assumption | ].
  rewrite HR2. unfold PyNum.int_of_float. eexists. reflexivity.
Qed.

Lemma score_value_exact (count : Z) :
  0 <= count < 2 ^ 45 -> score_value count = 100 * count / 6.
Proof.
  intros Hc. unfold score_value. rewrite score_of_exact by assumption. reflexivity.
Qed.

Lemma match_count_length (required user_skills : list string) :
  match_count required user_skills
  = Z.of_nat (List.length (filter (fun skill => Str.mem skill required) user_skills)).
Proof.
  unfold match_count.
  generalize (filter (fun skill => Str.mem skill required) user_skills). intros l.
  assert (H : forall acc, fold_left Z.add (map (fun _ : string => 1) l) acc
                          = acc + Z.of_nat (List.length l)).
  { induction l as [ | x l IH ]; intros acc; cbn [map fold_left List.length].
    - lia.
    - rewrite IH. lia. }
  rewrite H. lia.
Qed.

Lemma match_count_bounds (required user_skills : list string) :
  0 <= match_count required user_skills <= Z.of_nat (List.length user_skills).
Proof.
  rewrite match_count_length.
  pose proof (filter_length_le (fun skill => Str.mem skill required) user_skills). lia.
Qed.

Lemma match_count_cons (required user_skills : list string) (skill : string) :
  match_count required (skill :: user_skills)
  = (if Str.mem skill required then 1 else 0) + match_count required user_skills.
Proof.
  rewrite !match_count_length. cbn [filter].
  destruct (Str.mem skill required); cbn [List.length]; lia.
Qed.

Lemma match_count_app (required l1 l2 : list string) :
  match_count required (l1 ++ l2) = match_count required l1 + match_count required l2.
Proof.
  rewrite !match_count_length, filter_app, length_app. lia.
Qed.

Lemma mem_In (x : string) (xs : list string) :
  Str.mem x xs = true <-> In x xs.
Proof.
  unfold Str.mem. rewrite existsb_exists. split.
  - intros [y [Hy Heq]]. apply String.eqb_eq in Heq. subst. assumption.
  - intros H. exists x. split; [ assumption | apply String.eqb_refl ].
Qed.

Lemma mem_not_In (x : string) (xs : list string) :
  Str.mem x xs = false <-> ~ In x xs.
Proof.
  rewrite <- mem_In. destruct (Str.mem x xs); split; congruence.
Qed.

(** What [_analyze_skills_tool] does: one line on the standard output,
    then the analysis against the six reference skills. *)
Lemma analyze_eval (user_skills : list string) (job_description : string) (w : world) :
  _analyze_skills_tool user_skills job_description w
  = (analyze_with required_skills user_skills,
     {| self := self w;
        stdout := stdout w ++
          ["[Tool: Skill Analysis] Analyzing user skills against job requirements..."] |}).
Proof. reflexivity. Qed.

Lemma analyze_with_returns (user_skills : list string) :
  Z.of_nat (List.length user_skills) <= sys_maxsize ->
  analyze_with required_skills user_skills
  = inr {| match_score := score_value (match_count required_skills user_skills);
           skill_gaps := gaps_of required_skills user_skills |}.
Proof.
  intros Hlen. unfold analyze_with.
  pose proof (match_count_bounds required_skills user_skills).
  rewrite score_of_returns by lia. reflexivity.
Qed.

Lemma analyze_with_exact (user_skills : list string) :
  Z.of_nat (List.length user_skills) < 2 ^ 45 ->
  analyze_with required_skills user_skills
  = inr {| match_score := 100 * match_count required_skills user_skills / 6;
           skill_gaps := gaps_of required_skills user_skills |}.
Proof.
  intros Hlen. unfold analyze_with.
  pose proof (match_count_bounds required_skills user_skills).
  rewrite score_of_exact by lia. reflexivity.
Qed.

(* ------------------------------------------------------------------ *)
(** ** Lists: stable filters, partitions, counting *)

Section Lists.

Context {A : Type}.

Lemma filter_Filtered (f : A -> bool) (P : A -> Prop) (l : list A) :
  (forall x, f x = true <-> P x) -> Filtered P l (filter f l).
Proof.
  intros Hf. induction l as [ | x l IH ]; cbn [filter].
  - constructor.
  - destruct (f x) eqn:Hx.
    + apply Filtered_keep; [ apply Hf; assumption | assumption ].
    + apply Filtered_drop; [ | assumption ].
      intros HP. apply Hf in HP. congruence.
Qed.



Lemma filter_split_Permutation (f : A -> bool) (l : list A) :
  Permutation (filter (fun x => negb (f x)) l ++ filter f l) l.
Proof.
  induction l as [ | x l IH ]; cbn [filter].
  - constructor.
  - destruct (f x); cbn [negb app].
    + apply Permutation_sym, Permutation_cons_app, Permutation_sym, IH.
    + apply perm_skip, IH.
Qed.

End Lists.

Lemma list_sum_head (a : nat) (l : list nat) :
  list_sum (a :: l) = (a + list_sum l)%nat.
Proof. reflexivity. Qed.

Lemma count_occ_indicator (x : string) (T : list string) :
  NoDup T ->
  list_sum (map (fun t => if string_dec x t then 1%nat else 0%nat) T)
  = if Str.mem x T then 1%nat else 0%nat.
Proof.
  induction 1 as [ | t T Hnot Hnd IH ]; [ reflexivity | ].
  set (f := fun t => if string_dec x t then 1%nat else 0%nat) in *.
  change (list_sum (map f (t :: T))) with (f t + list_sum (map f T))%nat.
  rewrite IH. unfold Str.mem. cbn [existsb]. fold (Str.mem x T). subst f. cbv beta.
  destruct (string_dec x t) as [-> | Hne].
  - rewrite String.eqb_refl. cbn [orb].
    apply mem_not_In in Hnot. rewrite Hnot. reflexivity.
  - apply String.eqb_neq in Hne. rewrite Hne. reflexivity.
Qed.

(** The entries of [S] that are reference skills, counted one by one, are
    as many as the occurrences in [S] of each reference skill, added up. *)
Lemma matching_entries_by_occurrence (T S : list string) :
  NoDup T ->
  List.length (filter (fun skill => Str.mem skill T) S)
  = list_sum (map (count_occ string_dec S) T).
Proof.
  intros Hnd. induction S as [ | x S IH ].
  - cbn [filter List.length count_occ].
    clear Hnd. induction T as [ | t T IHT ]; [ reflexivity | cbn; assumption ].
  - cbn [filter].
    assert (Hsum : list_sum (map (count_occ string_dec (x :: S)) T)
                   = (list_sum (map (fun t => if string_dec x t then 1%nat else 0%nat) T)
                      + list_sum (map (count_occ string_dec S) T))%nat).
    { clear. induction T as [ | t T IHT ]; [ reflexivity | ].
      cbn [map]. rewrite !list_sum_head, IHT. cbn [count_occ].
      destruct (string_dec x t); lia. }
    rewrite Hsum, count_occ_indicator, <- IH by assumption.
    destruct (Str.mem x T); reflexivity.
Qed.

Lemma required_skills_NoDup : NoDup required_skills.
Proof.
  unfold required_skills.
  repeat (constructor; [ cbn [In]; intros H; repeat (destruct H as [H | H]; [ discriminate H | ]); exact H | ]).
  constructor.
Qed.

(** Without duplicates in [S], the matching entries of [S] are as many as
    the reference skills found in [S]. *)
Lemma matching_entries_NoDup (T S : list string) :
  NoDup T -> NoDup S ->
  List.length (filter (fun skill => Str.mem skill T) S)
  = List.length (present_of T S).
Proof.
  intros HT HS. apply Permutation_length, NoDup_Permutation.
  - apply NoDup_filter; assumption.
  - apply NoDup_filter; assumption.
  - intros x. unfold present_of. rewrite !filter_In, !mem_In. tauto.
Qed.

Lemma present_of_length (T S : list string) :
  (List.length (present_of T S) <= List.length T)%nat.
Proof. apply filter_length_le. Qed.

(* ------------------------------------------------------------------ *)
(** ** The Skill Analyzer *)

(** C1 (the code at the failing input): with seven entries ["Python"] in
    the user's list, [_analyze_skills_tool] counts seven matches against
    six reference skills and returns the match score 116, above 100. *)
Theorem analyze_score_exceeds_100 (job_description : string) (w : world) :
  fst (_analyze_skills_tool
         ["Python"; "Python"; "Python"; "Python"; "Python"; "Python"; "Python"]
         job_description w)
  = inr {| match_score := 116;
           skill_gaps := ["Data Analysis"; "SQL"; "Machine Learning"; "AI"; "Algorithms"] |}.
Proof. reflexivity. Qed.

(** Scenario A of the specification. *)
Example analyze_scenario_A :
  analyze_with required_skills ["Python"; "SQL"; "Machine Learning"]
  = inr {| match_score := 50; skill_gaps := ["Data Analysis"; "AI"; "Algorithms"] |}.
Proof. reflexivity. Qed.

Example lower_example : Str.lower "Machine Learning" = "machine learning"%string.
Proof. reflexivity. Qed.

(** The guard of the score: with no reference skill the score is 0. *)
Lemma score_of_empty_taxonomy (user_skills : list string) :
  analyze_with [] user_skills = inr {| match_score := 0; skill_gaps := [] |}.
Proof. reflexivity. Qed.

(** C5: for every list of user skills (a list of Python has at most
    [sys.maxsize] entries) the analysis returns; its skill gaps hold no
    skill of the user's list; they are the reference skills absent from
    that list, each once and in the order of the reference list; and the
    gaps together with the reference skills that the user has make up the
    reference list, with no skill on both sides. *)
Theorem skill_gaps_partition
  (user_skills : list string) (job_description : string) (w : world) :
  Z.of_nat (List.length user_skills) <= sys_maxsize ->
  exists r,
    fst (_analyze_skills_tool user_skills job_description w) = inr r /\
    (forall skill, In skill (skill_gaps r) -> ~ In skill user_skills) /\
    Filtered (fun skill => ~ In skill user_skills) required_skills (skill_gaps r) /\
    Permutation (skill_gaps r ++ present_of required_skills user_skills) required_skills /\
    (forall skill, In skill (present_of required_skills user_skills)
                   <-> In skill required_skills /\ In skill user_skills) /\
    (forall skill, In skill required_skills ->
                   (In skill (skill_gaps r) /\ ~ In skill (present_of required_skills user_skills)) \/
                   (~ In skill (skill_gaps r) /\ In skill (present_of required_skills user_skills))).
Proof.
  intros Hlen. rewrite analyze_eval. cbn [fst].
  rewrite analyze_with_returns by assumption.
  eexists. split; [ reflexivity | ]. cbn [skill_gaps].
  assert (Hg : forall skill, In skill (gaps_of required_skills user_skills)
                             <-> In skill required_skills /\ ~ In skill user_skills).
  { intros skill. unfold gaps_of. rewrite filter_In, negb_true_iff, mem_not_In. tauto. }
  assert (Hp : forall skill, In skill (present_of required_skills user_skills)
                             <-> In skill required_skills /\ In skill user_skills).
  { intros skill. unfold present_of. rewrite filter_In, mem_In. tauto. }
  split; [ intros skill H; apply Hg in H; tauto | ].
  split.
  { apply filter_Filtered. intros skill. rewrite negb_true_iff. apply mem_not_In. }
  split; [ apply filter_split_Permutation | ].
  split; [ exact Hp | ].
  intros skill Hin. rewrite Hg, Hp.
  destruct (in_dec string_dec skill user_skills); tauto.
Qed.

Lemma skill_gaps_partition_witness :
  exists r,
    fst (_analyze_skills_tool ["Python"; "SQL"; "Machine Learning"] EmptyString demo_world) = inr r /\
    skill_gaps r = ["Data Analysis"; "AI"; "Algorithms"] /\
    Permutation (skill_gaps r ++ present_of required_skills ["Python"; "SQL"; "Machine Learning"])
                required_skills.
Proof.
  destruct (skill_gaps_partition ["Python"; "SQL"; "Machine Learning"] EmptyString demo_world)
    as [r [Hr [_ [_ [Hperm _]]]]].
  - vm_compute. discriminate.
  - exists r. split; [ exact Hr | ]. split; [ | exact Hperm ].
    cbv in Hr. injection Hr as <-. reflexivity.
Defined.

(** C6: a list that gains a reference skill, at any place and whether or
    not it holds that skill already, gets a match score that is not
    lower.  (Lists of fewer than [2^45] entries: there the binary64
    arithmetic of the score is exact.) *)
Theorem match_score_monotone
  (before after : list string) (skill job_description : string) (w : world) :
  In skill required_skills ->
  Z.of_nat (List.length (before ++ skill :: after)) < 2 ^ 45 ->
  exists r r',
    fst (_analyze_skills_tool (before ++ after) job_description w) = inr r /\
    fst (_analyze_skills_tool (before ++ skill :: after) job_description w) = inr r' /\
    match_score r <= match_score r'.
Proof.
  intros Hin Hlen. rewrite !analyze_eval. cbn [fst].
  rewrite length_app in Hlen. cbn [List.length] in Hlen.
  rewrite !analyze_with_exact by (rewrite length_app; cbn [List.length]; lia).
  do 2 eexists. split; [ reflexivity | ]. split; [ reflexivity | ].
  cbn [match_score].
  rewrite !match_count_app, match_count_cons.
  apply mem_In in Hin. rewrite Hin.
  apply Z.div_le_mono; lia.
Qed.

Lemma match_score_monotone_witness :
  exists r r',
    fst (_analyze_skills_tool ["Python"; "COBOL"] EmptyString demo_world) = inr r /\
    fst (_analyze_skills_tool ["Python"; "SQL"; "COBOL"] EmptyString demo_world) = inr r' /\
    match_score r <= match_score r'.
Proof.
  apply (match_score_monotone ["Python"] ["COBOL"] "SQL" EmptyString demo_world).
  - cbn [required_skills In]. right. right. left. reflexivity.
  - reflexivity.
Defined.

(** C10: the match count takes every entry of the user's list that is a
    reference skill, duplicates included: it is the number of occurrences
    in the list of each reference skill, added up.  Hence, for a list
    without duplicates, the score is the integer part of
    [|S /\ taxonomy| / 6 * 100] and lies between 0 and 100, and one more
    copy of a reference skill makes the score larger.  (Lists of fewer
    than [2^45] entries: there the binary64 arithmetic of the score is
    exact.) *)
Theorem match_count_with_multiplicity
  (user_skills : list string) (skill job_description : string) (w : world) :
  In skill required_skills ->
  Z.of_nat (List.length (skill :: user_skills)) < 2 ^ 45 ->
  exists r r',
    fst (_analyze_skills_tool user_skills job_description w) = inr r /\
    fst (_analyze_skills_tool (skill :: user_skills) job_description w) = inr r' /\
    match_count required_skills user_skills
      = Z.of_nat (list_sum (map (count_occ string_dec user_skills) required_skills)) /\
    match_score r = 100 * match_count required_skills user_skills / 6 /\
    (NoDup user_skills ->
       match_score r
         = 100 * Z.of_nat (List.length (present_of required_skills user_skills)) / 6 /\
       0 <= match_score r <= 100) /\
    match_score r < match_score r'.
Proof.
  intros Hin Hlen. rewrite !analyze_eval. cbn [fst].
  cbn [List.length] in Hlen.
  rewrite !analyze_with_exact by (cbn [List.length]; lia).
  do 2 eexists. split; [ reflexivity | ]. split; [ reflexivity | ].
  cbn [match_score].
  split.
  { rewrite match_count_length. f_equal.
    apply matching_entries_by_occurrence, required_skills_NoDup. }
  split; [ reflexivity | ].
  split.
  - intros Hnd. rewrite match_count_length.
    rewrite (matching_entries_NoDup required_skills user_skills required_skills_NoDup Hnd).
    split; [ reflexivity | ].
    pose proof (present_of_length required_skills user_skills) as Hle.
    change (List.length required_skills) with 6%nat in Hle.
    set (c := Z.of_nat (List.length (present_of required_skills user_skills))).
    assert (Hc : 0 <= c <= 6) by lia.
    split.
    + apply Z.div_pos; lia.
    + apply Z.div_le_upper_bound; lia.
  - rewrite match_count_cons. apply mem_In in Hin. rewrite Hin.
    pose proof (match_count_bounds required_skills user_skills) as Hb.
    set (c := match_count required_skills user_skills) in *.
    assert (H1 : 100 * c / 6 + 16 <= 100 * (1 + c) / 6).
    { replace (100 * (1 + c)) with (100 * c + 4 + 16 * 6) by ring.
      rewrite Z.div_add by lia.
      assert (100 * c / 6 <= (100 * c + 4) / 6) by (apply Z.div_le_mono; lia). lia. }
    lia.
Qed.

Lemma match_count_with_multiplicity_witness :
  exists r r',
    fst (_analyze_skills_tool ["Python"; "SQL"] EmptyString demo_world) = inr r /\
    fst (_analyze_skills_tool ["Python"; "Python"; "SQL"] EmptyString demo_world) = inr r' /\
    match_score r = 33 /\ match_score r' = 50.
Proof.
  destruct (match_count_with_multiplicity ["Python"; "SQL"] "Python" EmptyString demo_world)
    as [r [r' [Hr [Hr' _]]]].
  - cbn [required_skills In]. left. reflexivity.
  - reflexivity.
  - exists r, r'. split; [ exact Hr | ]. split; [ exact Hr' | ].
    cbv in Hr, Hr'. injection Hr as <-. injection Hr' as <-. split; reflexivity.
Defined.

(* ------------------------------------------------------------------ *)
(** ** Strings: substring search and lower case *)

Lemma prefix_spec (needle hay : string) :
  String.prefix needle hay = true <-> exists post, hay = (needle ++ post)%string.
Proof.
  revert hay. induction needle as [ | c needle IH ]; intros hay.
  - split; [ intros _; exists hay; reflexivity | destruct hay; reflexivity ].
  - destruct hay as [ | c' hay ]; cbn [String.prefix].
    + split; [ discriminate | intros [post H]; discriminate H ].
    + destruct (ascii_dec c c') as [-> | Hne].
      * rewrite IH. split; intros [post H]; exists post.
        -- cbn [append]. f_equal. exact H.
        -- cbn [append] in H. injection H as H. exact H.
      * split; [ discriminate | ].
        intros [post H]. cbn [append] in H. injection H as Hc _. congruence.
Qed.

Lemma contains_spec (needle hay : string) :
  Str.contains needle hay = true
  <-> exists pre post, hay = (pre ++ needle ++ post)%string.
Proof.
  split.
  - induction hay as [ | c hay IH ]; cbn [Str.contains];
      destruct (String.prefix needle _) eqn:Hp.
    + intros _. apply prefix_spec in Hp. destruct Hp as [post Hp].
      exists EmptyString, post. exact Hp.
    + discriminate.
    + intros _. apply prefix_spec in Hp. destruct Hp as [post Hp].
      exists EmptyString, post. exact Hp.
    + intros H. destruct (IH H) as [pre [post Heq]].
      exists (String c pre), post. cbn [append]. f_equal. exact Heq.
  - intros [pre [post Heq]]. revert hay Heq.
    induction pre as [ | c pre IH ]; intros hay Heq.
    + assert (Hp : String.prefix needle hay = true)
        by (apply prefix_spec; exists post; exact Heq).
      destruct hay; cbn [Str.contains]; rewrite Hp; reflexivity.
    + cbn [append] in Heq. subst hay. cbn [Str.contains].
      destruct (String.prefix needle _); [ reflexivity | ].
      apply IH. reflexivity.
Qed.

(** *** Lower case on ASCII text *)







Example lower_capital_sigma : Str.lower capital_sigma = Str.encode [963].
Proof. vm_compute. reflexivity. Qed.

(** Outside ASCII the case data decide: the capital E with an acute
    accent (U+00C9) goes to the small one (U+00E9). *)
Example lower_cafe :
  Str.lower (Str.encode [67; 65; 70; 201]) = Str.encode [99; 97; 102; 233].
Proof. vm_compute. reflexivity. Qed.

(** The sigma that ends a word becomes the final sigma. *)
Example lower_odos : Str.lower odos = Str.encode [959; 948; 959; 962].
Proof. vm_compute. reflexivity. Qed.



(* ------------------------------------------------------------------ *)
(** ** The Job Finder *)

Lemma for_each_filter {A : Type} (f : A -> bool) (xs acc : list A) (w : world) :
  for_each xs (fun found x => if f x then ret (found ++ [x]) else ret found) acc w
  = (inr (acc ++ filter f xs), w).
Proof.
  revert acc. induction xs as [ | x xs IH ]; intros acc; cbn [for_each filter].
  - unfold ret. rewrite app_nil_r. reflexivity.
  - unfold bind. destruct (f x); unfold ret at 1; rewrite IH.
    + rewrite <- app_assoc. reflexivity.
    + reflexivity.
Qed.

(** What [_find_jobs_tool] does: one line on the standard output, then
    the filter of the job database. *)
Lemma find_eval (skills : list string) (w : world) :
  _find_jobs_tool skills w
  = (inr (filter (job_matches skills) (mock_jobs (self w))),
     {| self := self w; stdout := stdout w ++ [job_search_line skills] |}).
Proof.
  unfold _find_jobs_tool, bind, print, get_self. cbn [self].
  rewrite for_each_filter. reflexivity.
Qed.




(* ------------------------------------------------------------------ *)
(** ** The Learning Recommender *)

Lemma get_or_found (table : list (string * string)) (k v default : string) :
  NoDup (map fst table) -> In (k, v) table -> get_or table k default = v.
Proof.
  induction table as [ | [k' v'] table IH ]; intros Hnd Hin; [ contradiction | ].
  cbn [get_or]. cbn [map fst] in Hnd. inversion Hnd as [ | ? ? Hnot Hnd' ]; subst.
  destruct Hin as [Heq | Hin].
  - injection Heq as -> ->. rewrite String.eqb_refl. reflexivity.
  - destruct (String.eqb k k') eqn:Hk.
    + apply String.eqb_eq in Hk. subst k'. exfalso. apply Hnot.
      change k with (fst (k, v)). apply in_map. exact Hin.
    + apply IH; assumption.
Qed.

Lemma get_or_absent (table : list (string * string)) (k default : string) :
  (forall v, ~ In (k, v) table) -> get_or table k default = default.
Proof.
  induction table as [ | [k' v'] table IH ]; intros Hno; [ reflexivity | ].
  cbn [get_or]. destruct (String.eqb k k') eqn:Hk.
  - apply String.eqb_eq in Hk. subst k'. exfalso. apply (Hno v'). left. reflexivity.
  - apply IH. intros v Hin. apply (Hno v). right. exact Hin.
Qed.

Lemma recommendations_keys_NoDup : NoDup (map fst recommendations).
Proof.
  cbn [recommendations map fst].
  repeat (constructor; [ cbn [In]; intros H; repeat (destruct H as [H | H]; [ discriminate H | ]); exact H | ]).
  constructor.
Qed.

(** C7, as amended: the recommender never fails and leaves the agent as
    it is, and it prints one line, which names the gaps, on the standard
    output; it returns as many recommendations as there are gaps, the one
    at each position being for the gap at that position: the resource of
    the table when the table has the skill, and otherwise the text
    ["Online resources for "] followed by the skill's name. *)
Theorem recommend_per_gap (gaps : list string) (w : world) :
  exists plan,
    _recommend_learning_tool gaps w
    = (inr plan,
       {| self := self w;
          stdout := stdout w ++
            [("[Tool: Learning Resources] Recommending courses for skill gaps: "
              ++ Str.join ", " gaps)%string] |}) /\
    List.length plan = List.length gaps /\
    forall i skill,
      nth_error gaps i = Some skill ->
      (forall resource, In (skill, resource) recommendations ->
                        nth_error plan i = Some resource) /\
      ((forall resource, ~ In (skill, resource) recommendations) ->
       nth_error plan i = Some ("Online resources for " ++ skill)%string /\
       Str.contains skill ("Online resources for " ++ skill)%string = true).
Proof.
  exists (recommend gaps). split; [ reflexivity | ].
  split; [ apply length_map | ].
  intros i skill Hi. unfold recommend. rewrite nth_error_map, Hi. cbn [option_map].
  split.
  - intros resource Hin. f_equal.
    apply get_or_found; [ apply recommendations_keys_NoDup | exact Hin ].
  - intros Hno. split.
    + f_equal. apply get_or_absent. exact Hno.
    + apply contains_spec. exists "Online resources for "%string, EmptyString.
      symmetry. f_equal. clear. induction skill as [ | c s IH ]; [ reflexivity | ].
      cbn [append]. f_equal. exact IH.
Qed.

Lemma recommend_per_gap_witness :
  exists plan,
    fst (_recommend_learning_tool ["SQL"; "Algorithms"] demo_world) = inr plan /\
    nth_error plan 0 = Some "Udemy: The Complete SQL Bootcamp" /\
    nth_error plan 1 = Some "Online resources for Algorithms".
Proof.
  destruct (recommend_per_gap ["SQL"; "Algorithms"] demo_world) as [plan [Hrun [_ Hplan]]].
  exists plan. split; [ rewrite Hrun; reflexivity | ]. split.
  - apply (Hplan 0%nat "SQL"); [ reflexivity | ].
    cbn [recommendations In]. right. right. left. reflexivity.
  - apply (Hplan 1%nat "Algorithms"); [ reflexivity | ].
    intros resource H. cbn [recommendations In] in H.
    repeat (destruct H as [H | H]; [ discriminate H | ]). exact H.
Defined.

(** C7, as the claim states it, fails in one word: the recommender is not
    pure.  A call for the gap "SQL" on the demonstration agent, whose
    standard output is empty, leaves one line on it. *)
Lemma recommend_is_not_pure :
  stdout demo_world = [] /\
  stdout (snd (_recommend_learning_tool ["SQL"] demo_world))
  = ["[Tool: Learning Resources] Recommending courses for skill gaps: SQL"%string] /\
  snd (_recommend_learning_tool ["SQL"] demo_world) <> demo_world.
Proof. split; [ reflexivity | ]. split; [ reflexivity | discriminate ]. Qed.

(* ------------------------------------------------------------------ *)
(** ** Read-only methods *)

Lemma readonly_ret {A : Type} (a : A) : readonly (ret a).
Proof.
  intros agent. exists (inr a), []. intros out. unfold ret. rewrite app_nil_r. reflexivity.
Qed.

Lemma readonly_lift {A : Type} (r : exn + A) : readonly (lift r).
Proof.
  intros agent. exists r, []. intros out. unfold lift. rewrite app_nil_r. reflexivity.
Qed.

Lemma readonly_print (line : string) : readonly (print line).
Proof. intros agent. exists (inr tt), [line]. intros out. reflexivity. Qed.

Lemma readonly_get_self : readonly get_self.
Proof.
  intros agent. exists (inr agent), []. intros out. unfold get_self. cbn [self].
  rewrite app_nil_r. reflexivity.
Qed.

Lemma readonly_bind {A B : Type} (m : M A) (k : A -> M B) :
  readonly m -> (forall a, readonly (k a)) -> readonly (bind m k).
Proof.
  intros Hm Hk agent. destruct (Hm agent) as [[e | a] [lines Hrun]].
  - exists (inl e), lines. intros out. unfold bind. rewrite Hrun. reflexivity.
  - destruct (Hk a agent) as [r' [lines' Hrun']].
    exists r', (lines ++ lines'). intros out. unfold bind.
    rewrite Hrun, Hrun', app_assoc. reflexivity.
Qed.

Lemma readonly_try_except {A : Type} (body : M A) (handler : exn -> M A) :
  readonly body -> (forall e, readonly (handler e)) -> readonly (try_except body handler).
Proof.
  intros Hm Hk agent. destruct (Hm agent) as [[e | a] [lines Hrun]].
  - destruct (Hk e agent) as [r' [lines' Hrun']].
    exists r', (lines ++ lines'). intros out. unfold try_except.
    rewrite Hrun, Hrun', app_assoc. reflexivity.
  - exists (inr a), lines. intros out. unfold try_except. rewrite Hrun. reflexivity.
Qed.

Lemma readonly_for_each {A B : Type} (xs : list A) (body : B -> A -> M B) (acc : B) :
  (forall acc' x, readonly (body acc' x)) -> readonly (for_each xs body acc).
Proof.
  intros Hbody. revert acc. induction xs as [ | x xs IH ]; intros acc; cbn [for_each].
  - apply readonly_ret.
  - apply readonly_bind; [ apply Hbody | intros acc'; apply IH ].
Qed.

Create HintDb readonly.
#[local] Hint Resolve readonly_ret readonly_lift readonly_print readonly_get_self : readonly.

Lemma readonly_find (skills : list string) : readonly (_find_jobs_tool skills).
Proof.
  unfold _find_jobs_tool.
  apply readonly_bind; [ auto with readonly | intros _ ].
  apply readonly_bind; [ auto with readonly | intros agent ].
  apply readonly_for_each. intros found job.
  destruct (job_matches skills job); auto with readonly.
Qed.

Lemma readonly_analyze (user_skills : list string) (job_description : string) :
  readonly (_analyze_skills_tool user_skills job_description).
Proof.
  unfold _analyze_skills_tool. apply readonly_bind; [ | intros _ ]; auto with readonly.
Qed.

Lemma readonly_recommend (gaps : list string) : readonly (_recommend_learning_tool gaps).
Proof.
  unfold _recommend_learning_tool. apply readonly_bind; [ | intros _ ]; auto with readonly.
Qed.

(** [run_agent] reads the agent and prints; it assigns nothing. *)
Lemma readonly_run_agent (profile : user_profile) : readonly (run_agent profile).
Proof.
  unfold run_agent.
  apply readonly_bind; [ auto with readonly | intros _ ].
  apply readonly_bind; [ apply readonly_find | intros job_listings ].
  destruct job_listings as [ | job0 rest ]; [ auto with readonly | ].
  apply readonly_bind.
  - apply readonly_for_each. intros final_report job. unfold run_agent_step.
    apply readonly_bind; [ apply readonly_analyze | intros analysis ].
    apply readonly_bind; [ | intros job_match; auto with readonly ].
    destruct (skill_gaps analysis); [ auto with readonly | ].
    apply readonly_bind; [ apply readonly_recommend | intros plan; auto with readonly ].
  - intros final_report.
    apply readonly_bind; [ | intros _ ]; auto with readonly.
Qed.

Lemma readonly_find_jobs (request_skills : option (list string)) :
  readonly (find_jobs request_skills).
Proof.
  unfold find_jobs.
  destruct (match request_skills with Some l => l | None => [] end) as [ | skill rest ];
    [ auto with readonly | ].
  apply readonly_try_except; [ | intros e; auto with readonly ].
  apply readonly_bind; [ apply readonly_find | intros job_listings ].
  destruct job_listings; [ auto with readonly | ].
  apply readonly_bind; [ apply readonly_run_agent | intros report; auto with readonly ].
Qed.

Lemma skipn_length_app {A : Type} (a b : list A) :
  skipn (List.length a) (a ++ b) = b.
Proof. induction a as [ | x a IH ]; [ reflexivity | exact IH ]. Qed.

(** A read-only method can be run again: same result, same lines, and
    the agent is left as it was found. *)
Lemma readonly_rerun {A : Type} (m : M A) (w : world) :
  readonly m ->
  self (snd (m w)) = self w /\
  fst (m (snd (m w))) = fst (m w) /\
  self (snd (m (snd (m w)))) = self w /\
  printed m (snd (m w)) = printed m w.
Proof.
  intros Hm. destruct w as [agent out]. destruct (Hm agent) as [r [lines Hrun]].
  unfold printed. rewrite !Hrun. cbn [fst snd self stdout]. rewrite !Hrun.
  cbn [fst snd self stdout].
  repeat split.
  rewrite !skipn_length_app. reflexivity.
Qed.

(* ------------------------------------------------------------------ *)
(** ** The workflow *)

(** One turn of the loop: it never fails, leaves the agent as it is, and
    appends to the matches the entry [job_match_of] of the job. *)
Lemma run_agent_step_eval (user_skills : list string) :
  Z.of_nat (List.length user_skills) <= sys_maxsize ->
  forall (entries : list value) (job : JobPosting) (w : world),
  exists lines,
    run_agent_step user_skills
      [ ("status", VStr "Success"); ("matches", VList entries) ] job w
    = (inr [ ("status", VStr "Success");
             ("matches", VList (entries ++ [VDict (job_match_of user_skills job)])) ],
       {| self := self w; stdout := stdout w ++ lines |}).
Proof.
  intros Hlen entries job w. unfold run_agent_step.
  unfold bind at 1. rewrite analyze_eval, analyze_with_returns by assumption.
  cbn [skill_gaps match_score]. unfold job_match_of.
  set (score := score_value (match_count required_skills user_skills)).
  destruct (gaps_of required_skills user_skills) as [ | gap gaps ] eqn:Hgaps.
  - unfold bind, ret. eexists. reflexivity.
  - unfold bind, ret, _recommend_learning_tool, bind, print, ret.
    cbn [self stdout]. rewrite <- app_assoc. eexists. reflexivity.
Qed.

Lemma run_agent_loop (user_skills : list string) :
  Z.of_nat (List.length user_skills) <= sys_maxsize ->
  forall (jobs : list JobPosting) (entries : list value) (w : world),
  exists lines,
    for_each jobs (run_agent_step user_skills)
      [ ("status", VStr "Success"); ("matches", VList entries) ] w
    = (inr [ ("status", VStr "Success");
             ("matches",
              VList (entries ++ map (fun job => VDict (job_match_of user_skills job)) jobs)) ],
       {| self := self w; stdout := stdout w ++ lines |}).
Proof.
  intros Hlen. induction jobs as [ | job jobs IH ]; intros entries w.
  - exists []. cbn [for_each map]. unfold ret. rewrite !app_nil_r.
    destruct w; reflexivity.
  - cbn [for_each map]. unfold bind.
    destruct (run_agent_step_eval user_skills Hlen entries job w) as [lines1 Hstep].
    rewrite Hstep.
    destruct (IH (entries ++ [VDict (job_match_of user_skills job)])
                 {| self := self w; stdout := stdout w ++ lines1 |}) as [lines2 Hrun].
    rewrite Hrun. cbn [self stdout]. rewrite <- !app_assoc. cbn [app].
    eexists. reflexivity.
Qed.

(** What [run_agent] returns and what it leaves behind. *)
Lemma run_agent_eval (profile : user_profile) (w : world) :
  Z.of_nat (List.length (skills_of profile)) <= sys_maxsize ->
  exists lines,
    run_agent profile w
    = (inr (VDict (report_of (mock_jobs (self w)) (skills_of profile))),
       {| self := self w;
          stdout := stdout w ++ initiated_line :: job_search_line (skills_of profile) :: lines |}).
Proof.
  intros Hlen. unfold run_agent. fold (skills_of profile). cbv zeta.
  unfold bind at 1. unfold print at 1. unfold bind at 1. rewrite find_eval.
  cbn [self stdout]. unfold report_of.
  destruct (filter (job_matches (skills_of profile)) (mock_jobs (self w)))
    as [ | job found ] eqn:Hfound.
  - exists []. unfold ret. rewrite <- app_assoc. reflexivity.
  - unfold bind at 1.
    match goal with
    | |- context [for_each ?jobs _ _ ?w'] =>
        destruct (run_agent_loop (skills_of profile) Hlen jobs [] w') as [lines Hrun];
        rewrite Hrun
    end.
    cbn [self stdout app]. unfold bind, print, ret. cbn [self stdout].
    rewrite <- !app_assoc. cbn [app]. eexists. reflexivity.
Qed.

Lemma filter_no_skills (catalog : list JobPosting) :
  filter (job_matches []) catalog = [].
Proof. induction catalog as [ | job catalog IH ]; [ reflexivity | exact IH ]. Qed.

(** The path of [run_agent] on which the Job Finder finds nothing. *)
Lemma run_agent_without_jobs (profile : user_profile) (w : world) :
  filter (job_matches (skills_of profile)) (mock_jobs (self w)) = [] ->
  run_agent profile w
  = (inr (VDict no_jobs_report),
     {| self := self w;
        stdout := stdout w ++ [initiated_line; job_search_line (skills_of profile)] |}).
Proof.
  intros Hfind. unfold run_agent. fold (skills_of profile). cbv zeta.
  unfold bind at 1. unfold print at 1. unfold bind at 1. rewrite find_eval.
  cbn [self stdout]. rewrite Hfind. unfold ret. rewrite <- app_assoc. reflexivity.
Qed.

(** The object and the output that [new_agent] leaves when the database
    file is there and holds the array [jobs]. *)
Example new_agent_loads_file (jobs : list JobPosting) :
  new_agent (fun _ => Some (JobsJson jobs)) "key" "mock_job_db.json" []
  = (inr tt,
     {| self := {| granite_api_key := "key"; mock_db_path := "mock_job_db.json";
                   mock_jobs := jobs |};
        stdout := ["AI Career Agent Initialized."%string] |}).
Proof. reflexivity. Qed.

(** The run of the main block of the script: three of the four postings
    are found, each with the score 50. *)
Example demo_run :
  fst (run_agent user_data demo_world)
  = inr (VDict (report_of mock_jobs_data (skills_of user_data))) /\
  map title (filter (job_matches (skills_of user_data)) mock_jobs_data)
  = ["Data Scientist"; "AI Engineer"; "Business Analyst"]%string /\
  dict_get "match_score" (job_match_of (skills_of user_data)
                                       {| title := EmptyString; company := EmptyString; description := EmptyString |})
  = Some (VInt 50).
Proof. repeat split. Qed.

(** C2 (as stated, refuted): on the empty skill list [run_agent] does not
    end in an error: it returns the report "No jobs found.", and it has
    called the Job Finder, whose line is on the standard output. *)
Lemma empty_skills_not_an_error :
  fst (run_agent {| skills := Some []; goal := None |} demo_world)
  = inr (VDict no_jobs_report) /\
  dict_get "status" no_jobs_report = Some (VStr "No jobs found.") /\
  dict_get "status" no_jobs_report <> Some (VStr "Error") /\
  In (job_search_line [])
     (printed (run_agent {| skills := Some []; goal := None |}) demo_world).
Proof.
  split; [ reflexivity | ]. split; [ reflexivity | ].
  split; [ discriminate | ]. cbv. right. left. reflexivity.
Qed.

(** C2 (amended): with no skill in the profile, [run_agent] calls the Job
    Finder, which finds nothing, and returns the report "No jobs found.";
    the error report for an empty skill list is the answer of the endpoint
    [find_jobs], with status 400, given before the agent is called: the
    endpoint prints nothing and leaves the agent as it is. *)
Theorem empty_skills_rejected_by_endpoint
  (request_skills : option (list string)) (goal : option string) (w : world) :
  match request_skills with Some l => l | None => [] end = [] ->
  run_agent {| skills := request_skills; goal := goal |} w
  = (inr (VDict no_jobs_report),
     {| self := self w;
        stdout := stdout w ++ [initiated_line; job_search_line []] |}) /\
  fst (_find_jobs_tool [] w) = inr [] /\
  find_jobs request_skills w = (inr error_no_skills, w).
Proof.
  intros Hempty. split; [ | split ].
  - rewrite run_agent_without_jobs; unfold skills_of; cbn [skills]; rewrite Hempty;
      [ reflexivity | apply filter_no_skills ].
  - rewrite find_eval. cbn [fst]. f_equal. apply filter_no_skills.
  - unfold find_jobs. rewrite Hempty. reflexivity.
Qed.

Lemma empty_skills_rejected_by_endpoint_witness :
  run_agent {| skills := Some []; goal := None |} demo_world
  = (inr (VDict no_jobs_report),
     {| self := demo_agent; stdout := [initiated_line; job_search_line []] |}) /\
  find_jobs (Some []) demo_world = (inr error_no_skills, demo_world).
Proof.
  destruct (empty_skills_rejected_by_endpoint (Some []) None demo_world) as [Hrun [_ Hshell]].
  - reflexivity.
  - split; [ exact Hrun | exact Hshell ].
Defined.

(** C3 (as stated, refuted): for the skill "COBOL", which no posting
    mentions, the report of [run_agent] has no entry ["matches"] at all,
    hence no empty sequence of matches. *)
Lemma no_jobs_report_lacks_matches :
  exists report,
    fst (run_agent {| skills := Some ["COBOL"]; goal := None |} demo_world)
    = inr (VDict report) /\
    dict_get "matches" report = None /\
    dict_get "matches" report <> Some (VList []).
Proof.
  exists no_jobs_report. split; [ reflexivity | ]. split; [ reflexivity | discriminate ].
Qed.

(** C3 (amended): whenever the Job Finder returns no job for the skills of
    the profile, [run_agent] returns the report with the status
    "No jobs found." and an explanatory text, and this report has no entry
    ["matches"]; the agent is left as it is. *)
Theorem no_jobs_found_report (profile : user_profile) (w : world) :
  fst (_find_jobs_tool (skills_of profile) w) = inr [] ->
  run_agent profile w
  = (inr (VDict no_jobs_report),
     {| self := self w;
        stdout := stdout w ++ [initiated_line; job_search_line (skills_of profile)] |}) /\
  dict_get "status" no_jobs_report = Some (VStr "No jobs found.") /\
  dict_get "report" no_jobs_report
  = Some (VStr "No suitable job listings were found with your current skills.") /\
  dict_get "matches" no_jobs_report = None.
Proof.
  intros Hfind. rewrite find_eval in Hfind. cbn [fst] in Hfind. injection Hfind as Hfind.
  split; [ | repeat split ].
  apply run_agent_without_jobs. exact Hfind.
Qed.

Lemma no_jobs_found_report_witness :
  fst (run_agent {| skills := Some ["COBOL"]; goal := None |} demo_world)
  = inr (VDict no_jobs_report) /\
  dict_get "matches" no_jobs_report = None.
Proof.
  destruct (no_jobs_found_report {| skills := Some ["COBOL"]; goal := None |} demo_world)
    as [Hrun [_ [_ Hmatches]]].
  - reflexivity.
  - split; [ rewrite Hrun; reflexivity | exact Hmatches ].
Defined.


(** C8 (as stated, refuted): when the database file is missing, the load
    does not fail, with [CatalogUnavailable] or otherwise: it returns, and
    so does the constructor that calls it. *)
Lemma load_does_not_fail_as_stated :
  fst (_load_mock_job_db no_such_file demo_world) = inr tt /\
  fst (new_agent no_such_file "YOUR_GRANITE_API_KEY" "mock_job_db.json" []) = inr tt.
Proof. split; reflexivity. Qed.

(** C8 (amended): when the database file does not exist, the load does not
    fail: it leaves the catalog empty and prints a warning, the agent is
    constructed, and every run of the workflow on that agent returns the
    report "No jobs found.". *)
Theorem missing_catalog_degrades (fs : filesystem) (key path : string) (out : list string) :
  fs path = None ->
  exists w,
    new_agent fs key path out = (inr tt, w) /\
    self w = {| granite_api_key := key; mock_db_path := path; mock_jobs := [] |} /\
    stdout w = out ++
      [ ("Warning: Mock job database not found at " ++ path ++ ". No jobs loaded.")%string;
        "AI Career Agent Initialized."%string ] /\
    forall profile out',
      fst (run_agent profile {| self := self w; stdout := out' |})
      = inr (VDict no_jobs_report).
Proof.
  intros Hfs. unfold new_agent, __init__, _load_mock_job_db, path_exists.
  unfold bind, set_granite_api_key, set_mock_db_path, get_self, set_mock_jobs, print.
  cbn [self stdout mock_db_path granite_api_key mock_jobs blank]. rewrite Hfs.
  cbn [self stdout mock_db_path granite_api_key mock_jobs].
  eexists. split; [ reflexivity | ]. cbn [self stdout].
  split; [ reflexivity | ]. split; [ rewrite <- app_assoc; reflexivity | ].
  intros profile out'.
  rewrite run_agent_without_jobs; reflexivity.
Qed.

Lemma missing_catalog_degrades_witness :
  exists w,
    new_agent no_such_file "YOUR_GRANITE_API_KEY" "mock_job_db.json" [] = (inr tt, w) /\
    mock_jobs (self w) = [] /\
    fst (run_agent user_data w) = inr (VDict no_jobs_report).
Proof.
  destruct (missing_catalog_degrades no_such_file "YOUR_GRANITE_API_KEY" "mock_job_db.json" []
              eq_refl)
    as [w [Hnew [Hself [_ Hrun]]]].
  exists w. split; [ exact Hnew | ]. split; [ rewrite Hself; reflexivity | ].
  destruct w as [agent out]. apply Hrun.
Defined.

(** C9: two runs of [run_agent] on the same profile (its list of skills,
    as every list of Python, has at most [sys.maxsize] entries), the
    second in the world that the first has left, return the same report
    and print the same lines; neither changes the agent, whose catalog and
    other attributes are after each run what they were before.  The report
    is a function of the catalog and of the skills of the profile alone. *)
Theorem run_agent_idempotent (profile : user_profile) (w : world) :
  Z.of_nat (List.length (skills_of profile)) <= sys_maxsize ->
  let first := run_agent profile w in
  let second := run_agent profile (snd first) in
  fst first = inr (VDict (report_of (mock_jobs (self w)) (skills_of profile))) /\
  fst second = fst first /\
  self (snd first) = self w /\
  self (snd second) = self w /\
  printed (run_agent profile) (snd first) = printed (run_agent profile) w.
Proof.
  intros Hlen first second. subst first second.
  destruct (readonly_rerun (run_agent profile) w (readonly_run_agent profile))
    as [Hself1 [Hfst [Hself2 Hprinted]]].
  destruct (run_agent_eval profile w Hlen) as [lines Hrun].
  split; [ rewrite Hrun; reflexivity | ].
  repeat split; assumption.
Qed.

Lemma run_agent_idempotent_witness :
  let first := run_agent user_data demo_world in
  let second := run_agent user_data (snd first) in
  fst first = inr (VDict (report_of mock_jobs_data (skills_of user_data))) /\
  fst second = fst first /\
  self (snd first) = demo_agent /\
  self (snd second) = demo_agent /\
  printed (run_agent user_data) (snd first) = printed (run_agent user_data) demo_world.
Proof.
  apply (run_agent_idempotent user_data demo_world). vm_compute. discriminate.
Defined.

(* ------------------------------------------------------------------ *)
(** * Further properties of the code *)

(** ** The Job Finder, beyond the filter *)

Lemma filter_all {A : Type} (f : A -> bool) (l : list A) :
  (forall x, In x l -> f x = true) -> filter f l = l.
Proof.
  induction l as [ | x l IH ]; intros H; cbn [filter]; [ reflexivity | ].
  rewrite (H x) by (left; reflexivity). f_equal. apply IH.
  intros y Hy. apply H. right. exact Hy.
Qed.

Lemma filter_none {A : Type} (f : A -> bool) (l : list A) :
  (forall x, In x l -> f x = false) <-> filter f l = [].
Proof.
  induction l as [ | x l IH ]; cbn [filter].
  - split; [ reflexivity | intros _ x [] ].
  - destruct (f x) eqn:Hx.
    + split; [ | discriminate ].
      intros H. specialize (H x (or_introl eq_refl)). congruence.
    + rewrite <- IH. split.
      * intros H y Hy. apply H. right. exact Hy.
      * intros H y [-> | Hy]; [ exact Hx | apply H; exact Hy ].
Qed.

Lemma filter_narrow {A : Type} (f g : A -> bool) (l : list A) :
  (forall x, f x = true -> g x = true) -> filter f (filter g l) = filter f l.
Proof.
  intros H. induction l as [ | x l IH ]; cbn [filter]; [ reflexivity | ].
  destruct (g x) eqn:Hg; cbn [filter].
  - rewrite IH. reflexivity.
  - destruct (f x) eqn:Hf; [ | exact IH ].
    apply H in Hf. congruence.
Qed.

Lemma job_matches_app (s1 s2 : list string) (job : JobPosting) :
  job_matches (s1 ++ s2) job = (job_matches s1 job || job_matches s2 job)%bool.
Proof. unfold job_matches. apply existsb_app. Qed.

(** X1: the empty string is a substring of every description: a query
    that holds the skill [""] gets the whole catalog, in catalog order. *)
Theorem empty_skill_finds_every_job (skills : list string) (w : world) :
  In EmptyString skills ->
  fst (_find_jobs_tool skills w) = inr (mock_jobs (self w)).
Proof.
  intros Hin. rewrite find_eval. cbn [fst]. f_equal.
  apply filter_all. intros job _. unfold job_matches. apply existsb_exists.
  exists EmptyString. split; [ exact Hin | ].
  change (Str.lower EmptyString) with EmptyString. apply contains_spec.
  exists EmptyString, (Str.lower (description job)). reflexivity.
Qed.

Lemma empty_skill_finds_every_job_witness :
  fst (_find_jobs_tool ["COBOL"; EmptyString] demo_world) = inr mock_jobs_data.
Proof.
  apply (empty_skill_finds_every_job ["COBOL"; EmptyString] demo_world).
  right. left. reflexivity.
Defined.

(** X2: a query for the skills of two lists finds the jobs that one of
    the two lists finds, and no other; and the Job Finder run for the
    first list on the joint result as its catalog returns what the first
    list finds in the whole catalog, in the same order. *)
Theorem find_jobs_of_joined_skills (s1 s2 : list string) (w : world) :
  exists found1 found2 found,
    fst (_find_jobs_tool s1 w) = inr found1 /\
    fst (_find_jobs_tool s2 w) = inr found2 /\
    fst (_find_jobs_tool (s1 ++ s2) w) = inr found /\
    (forall job, In job found <-> In job found1 \/ In job found2) /\
    (forall w', mock_jobs (self w') = found ->
                fst (_find_jobs_tool s1 w') = inr found1).
Proof.
  rewrite !find_eval. cbn [fst]. do 3 eexists.
  split; [ reflexivity | ]. split; [ reflexivity | ]. split; [ reflexivity | ].
  split.
  - intros job. rewrite !filter_In, job_matches_app, orb_true_iff. tauto.
  - intros w' Hw'. rewrite find_eval, Hw'. cbn [fst]. f_equal.
    apply filter_narrow.
    intros job H. rewrite job_matches_app, H. reflexivity.
Qed.

(** The theorem on the demonstration catalog, for a query in two parts. *)
Lemma find_jobs_of_joined_skills_witness :
  exists found1 found2 found,
    fst (_find_jobs_tool ["sql"] demo_world) = inr found1 /\
    fst (_find_jobs_tool ["PYTHON"] demo_world) = inr found2 /\
    fst (_find_jobs_tool (["sql"] ++ ["PYTHON"]) demo_world) = inr found /\
    (forall job, In job found <-> In job found1 \/ In job found2) /\
    (forall w', mock_jobs (self w') = found ->
                fst (_find_jobs_tool ["sql"] w') = inr found1).
Proof. exact (find_jobs_of_joined_skills ["sql"] ["PYTHON"] demo_world). Defined.

(** X3: the result of the Job Finder depends on the skills of the query
    as a set and up to case only: two queries that name the same skills up
    to case, in any order and with any repetition, find the same jobs. *)
Theorem find_jobs_caseless_set (s1 s2 : list string) (w : world) :
  same_skills_caseless s1 s2 ->
  fst (_find_jobs_tool s1 w) = fst (_find_jobs_tool s2 w).
Proof.
  intros [H12 H21]. rewrite !find_eval. cbn [fst]. f_equal.
  apply filter_ext. intros job. apply eq_iff_eq_true.
  unfold job_matches. rewrite !existsb_exists. split.
  - intros [a [Ha Hm]]. destruct (H12 a Ha) as [b [Hb Heq]].
    exists b. split; [ exact Hb | rewrite <- Heq; exact Hm ].
  - intros [b [Hb Hm]]. destruct (H21 b Hb) as [a [Ha Heq]].
    exists a. split; [ exact Ha | rewrite Heq; exact Hm ].
Qed.

Lemma find_jobs_caseless_set_witness :
  fst (_find_jobs_tool ["PYTHON"; "sql"; "Python"] demo_world)
  = fst (_find_jobs_tool ["SQL"; "python"] demo_world).
Proof.
  apply (find_jobs_caseless_set ["PYTHON"; "sql"; "Python"] ["SQL"; "python"] demo_world).
  split.
  - intros a [<- | [<- | [<- | []]]].
    + exists "python". split; [ right; left; reflexivity | reflexivity ].
    + exists "SQL". split; [ left; reflexivity | reflexivity ].
    + exists "python". split; [ right; left; reflexivity | reflexivity ].
  - intros b [<- | [<- | []]].
    + exists "sql". split; [ right; left; reflexivity | reflexivity ].
    + exists "PYTHON". split; [ left; reflexivity | reflexivity ].
Defined.

(** ** The Skill Analyzer and the Recommender, beyond the partition *)

Lemma mem_Permutation (x : string) (l l' : list string) :
  Permutation l l' -> Str.mem x l = Str.mem x l'.
Proof.
  intros HP. apply eq_iff_eq_true. rewrite !mem_In.
  split; apply Permutation_in; [ exact HP | apply Permutation_sym; exact HP ].
Qed.

Lemma filter_length_Permutation {A : Type} (f : A -> bool) (l l' : list A) :
  Permutation l l' -> List.length (filter f l) = List.length (filter f l').
Proof.
  induction 1 as [ | x l l' _ IH | x y l | l l' l'' _ IH1 _ IH2 ]; cbn [filter].
  - reflexivity.
  - destruct (f x); cbn [List.length]; rewrite IH; reflexivity.
  - destruct (f x), (f y); reflexivity.
  - rewrite IH1. exact IH2.
Qed.

(** X4: the analysis compares names exactly, case included: when no skill
    of the user is, letter for letter, one of the six reference skills,
    the score is 0 and all six reference skills are gaps, whatever the
    length of the list. *)
Theorem no_exact_match_scores_zero
  (user_skills : list string) (job_description : string) (w : world) :
  (forall skill, In skill user_skills -> ~ In skill required_skills) ->
  fst (_analyze_skills_tool user_skills job_description w)
  = inr {| match_score := 0; skill_gaps := required_skills |}.
Proof.
  intros Hnone. rewrite analyze_eval. cbn [fst]. unfold analyze_with.
  assert (Hcount : match_count required_skills user_skills = 0).
  { rewrite match_count_length.
    replace (filter (fun skill => Str.mem skill required_skills) user_skills)
      with (@nil string); [ reflexivity | ].
    symmetry. apply filter_none. intros skill Hin.
    apply mem_not_In. apply Hnone. exact Hin. }
  rewrite Hcount.
  change (score_of required_skills 0) with (@inr exn Z 0).
  replace (gaps_of required_skills user_skills) with required_skills; [ reflexivity | ].
  symmetry. unfold gaps_of. apply filter_all.
  intros skill Hin. apply negb_true_iff, mem_not_In.
  intros Huser. exact (Hnone skill Huser Hin).
Qed.

Lemma no_exact_match_scores_zero_witness :
  fst (_analyze_skills_tool ["python"; "sql"; "machine learning"] EmptyString demo_world)
  = inr {| match_score := 0; skill_gaps := required_skills |}.
Proof.
  apply (no_exact_match_scores_zero ["python"; "sql"; "machine learning"]).
  intros skill [<- | [<- | [<- | []]]] Hin; cbn [required_skills In] in Hin;
    repeat (destruct Hin as [Hin | Hin]; [ discriminate Hin | ]); exact Hin.
Defined.

(** X5: the analysis does not depend on the order of the user's skills:
    two lists that are permutations of each other get the same score and
    the same gaps (or the same exception). *)
Theorem analysis_invariant_under_permutation
  (skills1 skills2 : list string) (job_description : string) (w : world) :
  Permutation skills1 skills2 ->
  fst (_analyze_skills_tool skills1 job_description w)
  = fst (_analyze_skills_tool skills2 job_description w).
Proof.
  intros HP. rewrite !analyze_eval. cbn [fst]. unfold analyze_with.
  assert (Hcount : match_count required_skills skills1
                   = match_count required_skills skills2).
  { rewrite !match_count_length. f_equal.
    apply filter_length_Permutation. exact HP. }
  assert (Hgaps : gaps_of required_skills skills1 = gaps_of required_skills skills2).
  { unfold gaps_of. apply filter_ext. intros skill.
    rewrite (mem_Permutation skill skills1 skills2 HP). reflexivity. }
  rewrite Hcount, Hgaps. reflexivity.
Qed.

Lemma analysis_invariant_under_permutation_witness :
  fst (_analyze_skills_tool ["SQL"; "COBOL"; "Python"] EmptyString demo_world)
  = fst (_analyze_skills_tool ["Python"; "SQL"; "COBOL"] EmptyString demo_world).
Proof.
  apply (analysis_invariant_under_permutation ["SQL"; "COBOL"; "Python"]
                                              ["Python"; "SQL"; "COBOL"]).
  apply Permutation_sym. apply (Permutation_cons_app ["SQL"; "COBOL"] []).
  apply Permutation_refl.
Defined.

Lemma list_sum_at_least (l : list nat) :
  (forall n, In n l -> (1 <= n)%nat) -> (List.length l <= list_sum l)%nat.
Proof.
  induction l as [ | n l IH ]; intros H; [ apply le_n | ].
  rewrite list_sum_head. cbn [List.length].
  specialize (H n (or_introl eq_refl)) as Hn.
  assert (List.length l <= list_sum l)%nat by (apply IH; intros m Hm; apply H; right; exact Hm).
  lia.
Qed.

(** X6: the analysis reports no gap exactly when the user's list holds all
    six reference skills; the score is then at least 100, and 100 when the
    list has no duplicate.  (Lists of fewer than [2^45] entries.) *)
Theorem no_gaps_iff_all_reference_skills
  (user_skills : list string) (job_description : string) (w : world) :
  Z.of_nat (List.length user_skills) < 2 ^ 45 ->
  exists r,
    fst (_analyze_skills_tool user_skills job_description w) = inr r /\
    (skill_gaps r = [] <-> forall skill, In skill required_skills -> In skill user_skills) /\
    (skill_gaps r = [] -> 100 <= match_score r) /\
    (skill_gaps r = [] -> NoDup user_skills -> match_score r = 100).
Proof.
  intros Hlen. rewrite analyze_eval. cbn [fst].
  rewrite analyze_with_exact by assumption.
  eexists. split; [ reflexivity | ]. cbn [skill_gaps match_score].
  assert (Hiff : gaps_of required_skills user_skills = []
                 <-> forall skill, In skill required_skills -> In skill user_skills).
  { unfold gaps_of. rewrite <- filter_none. split.
    - intros H skill Hin. apply mem_In. specialize (H skill Hin).
      apply negb_false_iff in H. exact H.
    - intros H skill Hin. apply negb_false_iff, mem_In, H. exact Hin. }
  split; [ exact Hiff | ]. split.
  - intros Hgaps. rewrite Hiff in Hgaps.
    rewrite match_count_length,
      (matching_entries_by_occurrence required_skills user_skills required_skills_NoDup).
    assert (Hsum : (List.length (map (count_occ string_dec user_skills) required_skills)
                    <= list_sum (map (count_occ string_dec user_skills) required_skills))%nat).
    { apply list_sum_at_least. intros n Hn. apply in_map_iff in Hn.
      destruct Hn as [skill [<- Hin]].
      apply (proj1 (count_occ_In string_dec user_skills skill)), Hgaps. exact Hin. }
    rewrite length_map in Hsum. change (List.length required_skills) with 6%nat in Hsum.
    apply Z.div_le_lower_bound; lia.
  - intros Hgaps Hnd. rewrite Hiff in Hgaps.
    rewrite match_count_length,
      (matching_entries_NoDup required_skills user_skills required_skills_NoDup Hnd).
    unfold present_of. rewrite filter_all; [ reflexivity | ].
    intros skill Hin. apply mem_In, Hgaps. exact Hin.
Qed.

Lemma no_gaps_iff_all_reference_skills_witness :
  exists r,
    fst (_analyze_skills_tool
           ["AI"; "SQL"; "Python"; "Algorithms"; "Data Analysis"; "Machine Learning"]
           EmptyString demo_world) = inr r /\
    skill_gaps r = [] /\ match_score r = 100.
Proof.
  destruct (no_gaps_iff_all_reference_skills
              ["AI"; "SQL"; "Python"; "Algorithms"; "Data Analysis"; "Machine Learning"]
              EmptyString demo_world) as [r [Hr _]].
  - reflexivity.
  - exists r. split; [ exact Hr | ].
    cbv in Hr. injection Hr as <-. split; reflexivity.
Defined.

(** X7: in the workflow the Recommender gets the gaps of the analysis,
    which are reference skills; so every entry of a learning plan is the
    resource of the table for its gap, except for the gap "Algorithms",
    which the table does not have and which gets the fallback text. *)
Theorem learning_plan_of_gaps (user_skills : list string) (i : nat) (gap : string) :
  nth_error (gaps_of required_skills user_skills) i = Some gap ->
  exists entry,
    nth_error (recommend (gaps_of required_skills user_skills)) i = Some entry /\
    ((gap = "Algorithms"%string /\ entry = "Online resources for Algorithms"%string) \/
     (gap <> "Algorithms"%string /\ In (gap, entry) recommendations)).
Proof.
  intros Hi. unfold recommend. rewrite nth_error_map, Hi. cbn [option_map].
  eexists. split; [ reflexivity | ].
  apply nth_error_In in Hi. unfold gaps_of in Hi. apply filter_In in Hi.
  destruct Hi as [Hin _]. cbn [required_skills In] in Hin.
  destruct Hin as [<- | [<- | [<- | [<- | [<- | [<- | []]]]]]].
  - right. split; [ discriminate | left; reflexivity ].
  - right. split; [ discriminate | right; left; reflexivity ].
  - right. split; [ discriminate | right; right; left; reflexivity ].
  - right. split; [ discriminate | right; right; right; left; reflexivity ].
  - right. split; [ discriminate | right; right; right; right; left; reflexivity ].
  - left. split; reflexivity.
Qed.

Lemma learning_plan_of_gaps_witness :
  nth_error (recommend (gaps_of required_skills ["Python"; "SQL"])) 3
  = Some "Online resources for Algorithms"%string.
Proof.
  destruct (learning_plan_of_gaps ["Python"; "SQL"] 3 "Algorithms")
    as [entry [Hentry [[_ Hfallback] | [Hne _]]]].
  - reflexivity.
  - rewrite Hentry, Hfallback. reflexivity.
  - exfalso. apply Hne. reflexivity.
Defined.

(** ** The workflow: the report and the trace *)

Lemma run_agent_step_trace (user_skills : list string) :
  Z.of_nat (List.length user_skills) <= sys_maxsize ->
  forall (entries : list value) (job : JobPosting) (w : world),
    run_agent_step user_skills
      [ ("status", VStr "Success"); ("matches", VList entries) ] job w
    = (inr [ ("status", VStr "Success");
             ("matches", VList (entries ++ [VDict (job_match_of user_skills job)])) ],
       {| self := self w; stdout := stdout w ++ step_lines user_skills |}).
Proof.
  intros Hlen entries job w. unfold run_agent_step.
  unfold bind at 1. rewrite analyze_eval, analyze_with_returns by assumption.
  cbn [skill_gaps match_score]. unfold job_match_of, step_lines.
  set (score := score_value (match_count required_skills user_skills)).
  destruct (gaps_of required_skills user_skills) as [ | gap gaps ] eqn:Hgaps.
  - reflexivity.
  - unfold bind, ret, _recommend_learning_tool, bind, print, ret.
    cbn [self stdout]. rewrite <- app_assoc. reflexivity.
Qed.

Lemma run_agent_loop_trace (user_skills : list string) :
  Z.of_nat (List.length user_skills) <= sys_maxsize ->
  forall (jobs : list JobPosting) (entries : list value) (w : world),
    for_each jobs (run_agent_step user_skills)
      [ ("status", VStr "Success"); ("matches", VList entries) ] w
    = (inr [ ("status", VStr "Success");
             ("matches",
              VList (entries ++ map (fun job => VDict (job_match_of user_skills job)) jobs)) ],
       {| self := self w;
          stdout := stdout w
                    ++ List.concat (map (fun _ => step_lines user_skills) jobs) |}).
Proof.
  intros Hlen. induction jobs as [ | job jobs IH ]; intros entries w.
  - cbn [for_each map List.concat]. unfold ret. rewrite !app_nil_r.
    destruct w; reflexivity.
  - cbn [for_each map List.concat]. unfold bind.
    rewrite (run_agent_step_trace user_skills Hlen entries job w), IH.
    cbn [self stdout]. rewrite <- !app_assoc. reflexivity.
Qed.

(** What [run_agent] returns and prints, line by line. *)
Lemma run_agent_trace (profile : user_profile) (w : world) :
  Z.of_nat (List.length (skills_of profile)) <= sys_maxsize ->
  run_agent profile w
  = (inr (VDict (report_of (mock_jobs (self w)) (skills_of profile))),
     {| self := self w;
        stdout := stdout w
                  ++ workflow_lines (skills_of profile)
                       (filter (job_matches (skills_of profile)) (mock_jobs (self w))) |}).
Proof.
  intros Hlen. unfold run_agent. fold (skills_of profile). cbv zeta.
  unfold bind at 1. unfold print at 1. unfold bind at 1. rewrite find_eval.
  cbn [self stdout]. unfold report_of, workflow_lines.
  destruct (filter (job_matches (skills_of profile)) (mock_jobs (self w)))
    as [ | job found ] eqn:Hfound.
  - unfold ret. rewrite <- app_assoc. reflexivity.
  - unfold bind at 1. rewrite (run_agent_loop_trace (skills_of profile) Hlen).
    cbn [self stdout app]. unfold bind, print, ret. cbn [self stdout].
    rewrite <- !app_assoc. reflexivity.
Qed.

(** X8: when the Job Finder finds jobs, the report has the status
    "Success" and one entry per found job, in the order of the catalog.
    The entry of a job holds its title and its company; the score and the
    gaps are those of the analysis of the user's skills, the same in every
    entry, since the analysis does not read the description of the job.
    The entry has the keys "skill_gaps" and "learning_plan" exactly when
    there is a gap, and the plan is then the recommendation for the
    gaps. *)
Theorem success_report_entries (profile : user_profile) (w : world) :
  Z.of_nat (List.length (skills_of profile)) <= sys_maxsize ->
  filter (job_matches (skills_of profile)) (mock_jobs (self w)) <> [] ->
  exists entries score,
    fst (run_agent profile w)
    = inr (VDict [ ("status", VStr "Success"); ("matches", VList entries) ]) /\
    (forall description,
       fst (_analyze_skills_tool (skills_of profile) description w)
       = inr {| match_score := score;
                skill_gaps := gaps_of required_skills (skills_of profile) |}) /\
    List.length entries
    = List.length (filter (job_matches (skills_of profile)) (mock_jobs (self w))) /\
    forall i job,
      nth_error (filter (job_matches (skills_of profile)) (mock_jobs (self w))) i = Some job ->
      exists entry,
        nth_error entries i = Some (VDict entry) /\
        dict_get "title" entry = Some (VStr (title job)) /\
        dict_get "company" entry = Some (VStr (company job)) /\
        dict_get "match_score" entry = Some (VInt score) /\
        match gaps_of required_skills (skills_of profile) with
        | [] => dict_get "skill_gaps" entry = None /\
                dict_get "learning_plan" entry = None
        | gaps => dict_get "skill_gaps" entry = Some (strs gaps) /\
                  dict_get "learning_plan" entry = Some (strs (recommend gaps))
        end.
Proof.
  intros Hlen Hfound. rewrite run_agent_trace by assumption. cbn [fst].
  unfold report_of.
  destruct (filter (job_matches (skills_of profile)) (mock_jobs (self w)))
    as [ | job0 found ] eqn:Hfilter; [ contradiction | ].
  exists (map (fun job => VDict (job_match_of (skills_of profile) job)) (job0 :: found)),
         (score_value (match_count required_skills (skills_of profile))).
  split; [ reflexivity | ].
  split.
  { intros description. rewrite analyze_eval. cbn [fst].
    apply analyze_with_returns. assumption. }
  split; [ apply length_map | ].
  intros i job Hi. rewrite nth_error_map, Hi. cbn [option_map].
  eexists. split; [ reflexivity | ].
  unfold job_match_of.
  generalize (score_value (match_count required_skills (skills_of profile))). intros score.
  destruct (gaps_of required_skills (skills_of profile)); repeat split.
Qed.

Lemma success_report_entries_witness :
  exists entries score,
    fst (run_agent user_data demo_world)
    = inr (VDict [ ("status", VStr "Success"); ("matches", VList entries) ]) /\
    List.length entries = 3%nat /\ score = 50.
Proof.
  destruct (success_report_entries user_data demo_world)
    as [entries [score [Hrun [Hscore [Hlen _]]]]].
  - vm_compute. discriminate.
  - discriminate.
  - exists entries, score. split; [ exact Hrun | ]. split; [ exact Hlen | ].
    specialize (Hscore EmptyString). cbv in Hscore. injection Hscore as <-. reflexivity.
Defined.

(** X9: what a run of the workflow prints, line by line: the opening
    line, the line of the Job Finder, then for each found job, in order,
    the line of the Skill Analyzer followed, when there are gaps, by the
    line of the Recommender, and the closing line; when no job is found,
    the first two lines only. *)
Theorem run_agent_prints (profile : user_profile) (w : world) :
  Z.of_nat (List.length (skills_of profile)) <= sys_maxsize ->
  printed (run_agent profile) w
  = workflow_lines (skills_of profile)
      (filter (job_matches (skills_of profile)) (mock_jobs (self w))).
Proof.
  intros Hlen. unfold printed. rewrite run_agent_trace by assumption.
  cbn [snd stdout]. apply skipn_length_app.
Qed.

Lemma run_agent_prints_witness :
  printed (run_agent user_data) demo_world
  = [ initiated_line; job_search_line (skills_of user_data);
      analysis_line; learning_line ["SQL"; "Machine Learning"; "AI"];
      analysis_line; learning_line ["SQL"; "Machine Learning"; "AI"];
      analysis_line; learning_line ["SQL"; "Machine Learning"; "AI"];
      complete_line ].
Proof.
  rewrite (run_agent_prints user_data demo_world).
  - reflexivity.
  - vm_compute. discriminate.
Defined.

(** ** The endpoint [find_jobs] on a list of skills that is not empty *)

Lemma find_jobs_eval (wanted : list string) (w : world) :
  wanted <> [] ->
  Z.of_nat (List.length wanted) <= sys_maxsize ->
  find_jobs (Some wanted) w
  = (inr (VDict match filter (job_matches wanted) (mock_jobs (self w)) with
                | [] => [ ("status", VStr "Success");
                          ("matches", VList []);
                          ("report", VStr "No suitable jobs found.") ]
                | found =>
                    [ ("status", VStr "Success");
                      ("matches",
                       VList (map (fun job => VDict (job_match_of wanted job)) found)) ]
                end,
          200),
     {| self := self w;
        stdout := stdout w ++
          job_search_line wanted ::
          match filter (job_matches wanted) (mock_jobs (self w)) with
          | [] => []
          | found => workflow_lines wanted found
          end |}).
Proof.
  intros Hne Hlen. unfold find_jobs.
  destruct wanted as [ | skill rest ]; [ contradiction | ].
  set (wanted := skill :: rest) in *.
  unfold try_except. unfold bind at 1. rewrite find_eval.
  destruct (filter (job_matches wanted) (mock_jobs (self w))) as [ | job found ] eqn:Hfound.
  - reflexivity.
  - unfold bind. rewrite run_agent_trace by exact Hlen.
    unfold skills_of. cbn [skills self stdout]. unfold report_of.
    rewrite Hfound. unfold ret. rewrite <- app_assoc. reflexivity.
Qed.

(** X10: to a request with at least one skill the endpoint [find_jobs]
    answers with the HTTP status 200 and the status "Success", and with
    one match entry per job that the Job Finder finds (none when it finds
    none); it leaves the agent as it is.  The report "No jobs found." of
    [run_agent] and the answer 500 do not occur. *)
Theorem find_jobs_answers_success (wanted : list string) (w : world) :
  wanted <> [] ->
  Z.of_nat (List.length wanted) <= sys_maxsize ->
  exists body w',
    find_jobs (Some wanted) w = (inr (VDict body, 200), w') /\
    self w' = self w /\
    dict_get "status" body = Some (VStr "Success") /\
    dict_get "matches" body
    = Some (VList (map (fun job => VDict (job_match_of wanted job))
                       (filter (job_matches wanted) (mock_jobs (self w))))).
Proof.
  intros Hne Hlen. rewrite find_jobs_eval by assumption.
  do 2 eexists. split; [ reflexivity | ]. split; [ reflexivity | ].
  destruct (filter (job_matches wanted) (mock_jobs (self w))); split; reflexivity.
Qed.

Lemma find_jobs_answers_success_witness :
  exists body w',
    find_jobs (Some ["COBOL"]) demo_world = (inr (VDict body, 200), w') /\
    dict_get "status" body = Some (VStr "Success") /\
    dict_get "matches" body = Some (VList []).
Proof.
  destruct (find_jobs_answers_success ["COBOL"] demo_world)
    as [body [w' [Hrun [_ [Hstatus Hmatches]]]]].
  - discriminate.
  - vm_compute. discriminate.
  - exists body, w'. split; [ exact Hrun | ]. split; [ exact Hstatus | exact Hmatches ].
Defined.

(** X11: a request to [find_jobs] that finds jobs goes through the
    catalog twice: the endpoint calls the Job Finder, and then the
    workflow, which calls it again; the trace has the line of the Job
    Finder, then the whole trace of the workflow.  A request that finds
    nothing calls the Job Finder once and does not start the workflow. *)
Theorem find_jobs_prints (wanted : list string) (w : world) :
  wanted <> [] ->
  Z.of_nat (List.length wanted) <= sys_maxsize ->
  printed (find_jobs (Some wanted)) w
  = job_search_line wanted ::
    match filter (job_matches wanted) (mock_jobs (self w)) with
    | [] => []
    | found =>
        initiated_line :: job_search_line wanted ::
        List.concat (map (fun _ => step_lines wanted) found) ++ [complete_line]
    end.
Proof.
  intros Hne Hlen. unfold printed. rewrite find_jobs_eval by assumption.
  cbn [snd stdout]. rewrite skipn_length_app.
  destruct (filter (job_matches wanted) (mock_jobs (self w))); reflexivity.
Qed.

Lemma find_jobs_prints_witness :
  printed (find_jobs (Some ["SQL"])) demo_world
  = [ job_search_line ["SQL"]; initiated_line; job_search_line ["SQL"];
      analysis_line;
      learning_line ["Python"; "Data Analysis"; "Machine Learning"; "AI"; "Algorithms"];
      complete_line ].
Proof.
  rewrite (find_jobs_prints ["SQL"] demo_world).
  - reflexivity.
  - discriminate.
  - vm_compute. discriminate.
Defined.

(** ** The shell: [allowed_file] *)

Lemma contains_dot_cons (c : ascii) (s : string) :
  Str.contains "." (String c s) = (Ascii.eqb c "." || Str.contains "." s)%bool.
Proof.
  cbn [Str.contains String.prefix].
  destruct (ascii_dec "." c) as [<- | Hne].
  - destruct s; reflexivity.
  - assert (Hc : Ascii.eqb c "." = false) by (apply Ascii.eqb_neq; congruence).
    rewrite Hc. reflexivity.
Qed.

Lemma rsplit_dot_none (s : string) :
  rsplit_dot s = None <-> Str.contains "." s = false.
Proof.
  induction s as [ | c s IH ]; [ split; reflexivity | ].
  rewrite contains_dot_cons, orb_false_iff. cbn [rsplit_dot].
  destruct (rsplit_dot s) as [[before after] | ].
  - split; [ discriminate | ].
    intros [_ H]. apply IH in H. discriminate H.
  - destruct (Ascii.eqb c ".").
    + split; [ discriminate | ]. intros [H _]. discriminate H.
    + split; [ | reflexivity ].
      intros _. split; [ reflexivity | apply IH; reflexivity ].
Qed.

Lemma rsplit_dot_some (s before after : string) :
  rsplit_dot s = Some (before, after)
  <-> s = (before ++ "." ++ after)%string /\ Str.contains "." after = false.
Proof.
  revert before. induction s as [ | c s IH ]; intros before.
  - split; [ discriminate | ]. intros [H _]. destruct before; discriminate H.
  - cbn [rsplit_dot]. destruct (rsplit_dot s) as [[b a] | ] eqn:Hs.
    + split.
      * intros H. injection H as <- <-.
        destruct (proj1 (IH b) eq_refl) as [-> Hno]. split; [ reflexivity | exact Hno ].
      * intros [Heq Hno]. destruct before as [ | c' before ].
        -- cbn [append] in Heq. injection Heq as _ Heq. subst s.
           apply rsplit_dot_none in Hno. congruence.
        -- cbn [append] in Heq. injection Heq as <- Heq.
           assert (H : Some (b, a) = Some (before, after))
             by (apply IH; split; assumption).
           injection H as -> ->. reflexivity.
    + apply rsplit_dot_none in Hs. destruct (Ascii.eqb c ".") eqn:Hc.
      * apply Ascii.eqb_eq in Hc. subst c. split.
        -- intros H. injection H as <- <-. split; [ reflexivity | exact Hs ].
        -- intros [Heq Hno]. destruct before as [ | c' before ].
           ++ cbn [append] in Heq. injection Heq as ->. reflexivity.
           ++ cbn [append] in Heq. injection Heq as _ Heq. exfalso.
              assert (Hyes : Str.contains "." s = true)
                by (apply contains_spec; exists before, after; exact Heq).
              congruence.
      * split; [ discriminate | ].
        intros [Heq Hno]. exfalso. destruct before as [ | c' before ].
        -- cbn [append] in Heq. injection Heq as -> _. discriminate Hc.
        -- cbn [append] in Heq. injection Heq as _ Heq.
           assert (Hyes : Str.contains "." s = true)
             by (apply contains_spec; exists before, after; exact Heq).
           congruence.
Qed.

(** X12: [allowed_file] accepts a file name exactly when the name has a
    dot and what follows its last dot is, up to case, one of txt, pdf, doc
    and docx.  A name without a dot, a name that ends in a dot, and a name
    with an allowed extension anywhere but last are refused. *)
Theorem allowed_file_spec (name : string) :
  allowed_file name = true
  <-> exists stem extension,
        name = (stem ++ "." ++ extension)%string /\
        Str.contains "." extension = false /\
        In (Str.lower extension) ALLOWED_EXTENSIONS.
Proof.
  unfold allowed_file. rewrite andb_true_iff. split.
  - intros [_ H]. destruct (rsplit_dot name) as [[stem extension] | ] eqn:Hsplit;
      [ | discriminate ].
    apply rsplit_dot_some in Hsplit. destruct Hsplit as [Hname Hno].
    exists stem, extension. split; [ exact Hname | ].
    split; [ exact Hno | apply mem_In; exact H ].
  - intros [stem [extension [Hname [Hno Hin]]]]. split.
    + apply contains_spec. exists stem, extension. exact Hname.
    + rewrite (proj2 (rsplit_dot_some name stem extension) (conj Hname Hno)).
      apply mem_In. exact Hin.
Qed.

Example allowed_file_examples :
  map allowed_file ["cv.pdf"; "cv.PDF"; "notes.final.Docx"; ".txt";
                    "cv"; "cv."; "cv.pdf.exe"; "pdf"]%string
  = [true; true; true; true; false; false; false; false].
Proof. reflexivity. Qed.

(** ** The shell: [learning_resources] *)

(** X13: [learning_resources] answers a request without a skill, or with
    the empty skill, with the status 400; to any other skill it answers
    with the HTTP status 200 and exactly three resources, each with a
    title and a URL under https://example.com/ that hold the name of the
    skill as it was sent. *)
Theorem learning_resources_spec (request_skill : option string) :
  (match request_skill with Some s => s | None => EmptyString end = EmptyString ->
   learning_resources request_skill
   = (error_report "Please provide a skill to search for.", 400)) /\
  (forall skill,
     request_skill = Some skill -> skill <> EmptyString ->
     exists resources,
       learning_resources request_skill
       = (VDict [ ("status", VStr "Success");
                  ("resources", VList resources);
                  ("report", VStr EmptyString) ], 200) /\
       List.length resources = 3%nat /\
       forall entry, In entry resources ->
         exists title url,
           entry = resource title url /\
           Str.contains skill title = true /\
           Str.contains skill url = true /\
           String.prefix "https://example.com/" url = true).
Proof.
  split.
  - intros Hempty. unfold learning_resources. rewrite Hempty. reflexivity.
  - intros skill -> Hne. unfold learning_resources.
    apply String.eqb_neq in Hne. rewrite Hne.
    eexists. split; [ reflexivity | ]. split; [ reflexivity | ].
    assert (Hend : forall s : string, s = (s ++ EmptyString)%string).
    { induction s as [ | c s IH ]; [ reflexivity | cbn [append]; f_equal; exact IH ]. }
    intros entry [<- | [<- | [<- | []]]]; do 2 eexists;
      (split; [ reflexivity | ]); (split; [ | split ]).
    + apply contains_spec. exists "Intro to "%string, EmptyString.
      rewrite <- Hend. reflexivity.
    + apply contains_spec. exists "https://example.com/"%string, "-intro"%string.
      reflexivity.
    + apply prefix_spec. eexists. reflexivity.
    + apply contains_spec. exists "Advanced "%string, " Course"%string. reflexivity.
    + apply contains_spec. exists "https://example.com/"%string, "-advanced"%string.
      reflexivity.
    + apply prefix_spec. eexists. reflexivity.
    + apply contains_spec. exists "Certification in "%string, EmptyString.
      rewrite <- Hend. reflexivity.
    + apply contains_spec. exists "https://example.com/"%string, "-cert"%string.
      reflexivity.
    + apply prefix_spec. eexists. reflexivity.
Qed.

Lemma learning_resources_spec_witness :
  learning_resources None = (error_report "Please provide a skill to search for.", 400) /\
  exists resources,
    learning_resources (Some "Rust"%string)
    = (VDict [ ("status", VStr "Success");
               ("resources", VList resources);
               ("report", VStr EmptyString) ], 200) /\
    List.length resources = 3%nat.
Proof.
  split.
  - apply (proj1 (learning_resources_spec None)). reflexivity.
  - destruct (proj2 (learning_resources_spec (Some "Rust"%string)) "Rust"%string)
      as [resources [Hrun [Hlen _]]].
    + reflexivity.
    + discriminate.
    + exists resources. split; [ exact Hrun | exact Hlen ].
Defined.

(** ** The shell: [analyze_skills] *)

Lemma simulated_run (w : world) :
  run_agent {| skills := Some simulated_skills; goal := Some "general career path"%string |} w
  = (inr (VDict (report_of (mock_jobs (self w)) simulated_skills)),
     {| self := self w;
        stdout := stdout w
                  ++ workflow_lines simulated_skills
                       (filter (job_matches simulated_skills) (mock_jobs (self w))) |}).
Proof.
  apply (run_agent_trace
           {| skills := Some simulated_skills; goal := Some "general career path"%string |} w).
  vm_compute. discriminate.
Qed.

(** X14: [analyze_skills] answers with the status 400 exactly when the
    request has no part "resume", or the file name is empty, or
    [allowed_file] refuses the name; it then writes no file, does not run
    the agent and prints nothing. *)
Theorem analyze_skills_refusal
  (secure_filename : string -> string) (request_files : option upload)
  (files : store) (w : world) :
  (exists body, fst (fst (analyze_skills secure_filename request_files files w))
                = inr (body, 400))
  <-> (request_files = None \/
       exists file, request_files = Some file /\
                    (filename file = EmptyString \/ allowed_file (filename file) = false)).
Proof.
  unfold analyze_skills. destruct request_files as [file | ].
  - destruct (String.eqb (filename file) EmptyString) eqn:Hname.
    + apply String.eqb_eq in Hname. split.
      * intros _. right. exists file. split; [ reflexivity | left; exact Hname ].
      * intros _. eexists. reflexivity.
    + apply String.eqb_neq in Hname.
      destruct (allowed_file (filename file)) eqn:Hallowed.
      * split.
        -- intros [body H]. exfalso.
           destruct (save_file files _ (content file)) as [e | saved];
             [ discriminate H | ].
           rewrite simulated_run in H.
           destruct (remove_file saved _) as [e | removed]; cbn [fst] in H;
             [ discriminate H | ].
           injection H as _ H. discriminate H.
        -- intros [H | [file' [Heq [H | H]]]]; [ discriminate H | | ];
             injection Heq as <-; congruence.
      * split.
        -- intros _. right. exists file. split; [ reflexivity | right; exact Hallowed ].
        -- intros _. eexists. reflexivity.
  - split; [ intros _; left; reflexivity | intros _; eexists; reflexivity ].
Qed.

(** X15: a request that [analyze_skills] answers with the status 400
    gets an error report, and leaves the files on disk, the agent and the
    standard output exactly as they were: nothing is saved and the agent
    is not run. *)
Theorem analyze_skills_refusal_leaves_all
  (secure_filename : string -> string) (request_files : option upload)
  (files : store) (w : world) (body : value) :
  fst (fst (analyze_skills secure_filename request_files files w)) = inr (body, 400) ->
  analyze_skills secure_filename request_files files w = (inr (body, 400), files, w) /\
  exists text, body = error_report text.
Proof.
  unfold analyze_skills. destruct request_files as [file | ].
  - destruct (String.eqb (filename file) EmptyString).
    + cbn [fst]. intros H. injection H as <-. split; [ reflexivity | eexists; reflexivity ].
    + destruct (allowed_file (filename file)).
      * intros H. exfalso.
        destruct (save_file files _ (content file)) as [e | saved];
          [ discriminate H | ].
        rewrite simulated_run in H.
        destruct (remove_file saved _) as [e | removed]; cbn [fst] in H;
          [ discriminate H | ].
        injection H as _ H. discriminate H.
      * cbn [fst]. intros H. injection H as <-.
        split; [ reflexivity | eexists; reflexivity ].
  - cbn [fst]. intros H. injection H as <-. split; [ reflexivity | eexists; reflexivity ].
Qed.

Lemma analyze_skills_refusal_leaves_all_witness :
  analyze_skills (fun name => name)
    (Some {| filename := "cv.exe"; content := "MZ" |}) (fun _ => None) demo_world
  = (inr (error_report "File type not allowed.", 400), fun _ => None, demo_world).
Proof.
  apply (analyze_skills_refusal_leaves_all (fun name => name)
           (Some {| filename := "cv.exe"; content := "MZ" |}) (fun _ => None) demo_world
           (error_report "File type not allowed.")).
  reflexivity.
Defined.

(** X16: for an accepted file name that can be saved, [analyze_skills]
    answers with the HTTP status 200 and the report of the workflow on the
    four simulated skills: neither the name nor the content of the file
    has any part in the report.  Afterwards no file is left at the upload
    path, also when one of that name was in the folder before; the other
    files and the agent are as before. *)
Theorem analyze_skills_accepts
  (secure_filename : string -> string) (file : upload) (files : store) (w : world) :
  allowed_file (filename file) = true ->
  ends_with_slash (path_join UPLOAD_FOLDER (secure_filename (filename file))) = false ->
  exists removed w',
    analyze_skills secure_filename (Some file) files w
    = (inr (VDict (report_of (mock_jobs (self w)) simulated_skills), 200), removed, w') /\
    self w' = self w /\
    removed (path_join UPLOAD_FOLDER (secure_filename (filename file))) = None /\
    forall path, path <> path_join UPLOAD_FOLDER (secure_filename (filename file)) ->
                 removed path = files path.
Proof.
  intros Hallowed Hslash. unfold analyze_skills.
  assert (Hname : String.eqb (filename file) EmptyString = false).
  { apply String.eqb_neq. intros Hempty. rewrite Hempty in Hallowed. discriminate Hallowed. }
  rewrite Hname, Hallowed.
  set (filepath := path_join UPLOAD_FOLDER (secure_filename (filename file))) in *.
  unfold save_file. rewrite Hslash. rewrite simulated_run.
  unfold remove_file. rewrite String.eqb_refl.
  do 2 eexists. split; [ reflexivity | ]. cbn [self].
  split; [ reflexivity | ]. split.
  - rewrite String.eqb_refl. reflexivity.
  - intros path Hpath. apply String.eqb_neq in Hpath. rewrite Hpath. reflexivity.
Qed.

Lemma analyze_skills_accepts_witness :
  exists removed w',
    analyze_skills (fun name => name)
      (Some {| filename := "cv.pdf"; content := "any" |})
      (fun path => if String.eqb path "uploads/cv.pdf" then Some "old"%string else None)
      demo_world
    = (inr (VDict (report_of mock_jobs_data simulated_skills), 200), removed, w') /\
    removed "uploads/cv.pdf"%string = None.
Proof.
  destruct (analyze_skills_accepts (fun name => name)
              {| filename := "cv.pdf"; content := "any" |}
              (fun path => if String.eqb path "uploads/cv.pdf" then Some "old"%string else None)
              demo_world)
    as [removed [w' [Hrun [_ [Hgone _]]]]].
  - reflexivity.
  - reflexivity.
  - exists removed, w'. split; [ exact Hrun | exact Hgone ].
Defined.

(** ** The load of the job database *)

(** X17: [_load_mock_job_db] never changes the key and the path of the
    agent.  When it raises, the agent, its catalog included, and the
    standard output are as before.  When it returns, the catalog is the
    array of the file, or empty when there is no file, whatever the
    catalog was; so loading again changes nothing more of the agent. *)
Theorem load_replaces_catalog (fs : filesystem) (w : world) :
  let loaded := _load_mock_job_db fs w in
  granite_api_key (self (snd loaded)) = granite_api_key (self w) /\
  mock_db_path (self (snd loaded)) = mock_db_path (self w) /\
  (forall e, fst loaded = inl e -> snd loaded = w) /\
  (fst loaded = inr tt ->
   mock_jobs (self (snd loaded))
   = match fs (mock_db_path (self w)) with
     | Some (JobsJson jobs) => jobs
     | _ => []
     end) /\
  fst (_load_mock_job_db fs (snd loaded)) = fst loaded /\
  self (snd (_load_mock_job_db fs (snd loaded))) = self (snd loaded).
Proof.
  unfold _load_mock_job_db, bind, get_self, path_exists, open_and_load,
    set_mock_jobs, print, ret, raise.
  cbn [self stdout mock_db_path granite_api_key mock_jobs fst snd].
  destruct (fs (mock_db_path (self w))) as [[e | jobs] | ] eqn:Hfs;
    cbn [self stdout mock_db_path granite_api_key mock_jobs fst snd]; rewrite ?Hfs;
    cbn [self stdout mock_db_path granite_api_key mock_jobs fst snd];
    repeat split; try discriminate; try reflexivity.
Qed.

Lemma load_replaces_catalog_witness :
  mock_jobs (self (snd (_load_mock_job_db (fun _ => Some (JobsJson [])) demo_world))) = [] /\
  snd (_load_mock_job_db locked_file demo_world) = demo_world.
Proof.
  destruct (load_replaces_catalog (fun _ => Some (JobsJson [])) demo_world)
    as [_ [_ [_ [Hloaded _]]]].
  destruct (load_replaces_catalog locked_file demo_world) as [_ [_ [Hraised _]]].
  split.
  - apply Hloaded. reflexivity.
  - apply (Hraised permission_denied). reflexivity.
Defined.

(** X18: an agent constructed on a database file that holds an array of
    jobs answers every run of the workflow from that array: the report is
    the one for these jobs and the skills of the profile, whatever the key
    and the path are. *)
Theorem constructed_agent_reports_from_file
  (fs : filesystem) (key path : string) (out : list string)
  (jobs : list JobPosting) (profile : user_profile) :
  fs path = Some (JobsJson jobs) ->
  Z.of_nat (List.length (skills_of profile)) <= sys_maxsize ->
  exists w,
    new_agent fs key path out = (inr tt, w) /\
    self w = {| granite_api_key := key; mock_db_path := path; mock_jobs := jobs |} /\
    stdout w = out ++ ["AI Career Agent Initialized."%string] /\
    fst (run_agent profile w) = inr (VDict (report_of jobs (skills_of profile))).
Proof.
  intros Hfs Hlen. unfold new_agent, __init__, _load_mock_job_db, path_exists, open_and_load.
  unfold bind, set_granite_api_key, set_mock_db_path, get_self, set_mock_jobs, print, ret.
  cbn [self stdout mock_db_path granite_api_key mock_jobs blank]. rewrite Hfs.
  cbn [self stdout mock_db_path granite_api_key mock_jobs].
  eexists. split; [ reflexivity | ]. cbn [self stdout].
  split; [ reflexivity | ]. split; [ reflexivity | ].
  rewrite run_agent_trace by exact Hlen. reflexivity.
Qed.

Lemma constructed_agent_reports_from_file_witness :
  exists w,
    new_agent (fun _ => Some (JobsJson mock_jobs_data))
              "YOUR_GRANITE_API_KEY" "mock_job_db.json" [] = (inr tt, w) /\
    self w = demo_agent /\
    fst (run_agent user_data w)
    = inr (VDict (report_of mock_jobs_data (skills_of user_data))).
Proof.
  destruct (constructed_agent_reports_from_file
              (fun _ => Some (JobsJson mock_jobs_data))
              "YOUR_GRANITE_API_KEY" "mock_job_db.json" [] mock_jobs_data user_data)
    as [w [Hnew [Hself [_ Hrun]]]].
  - reflexivity.
  - vm_compute. discriminate.
  - exists w. split; [ exact Hnew | ]. split; [ exact Hself | exact Hrun ].
Defined.
